(** * finmem-india: the decision-and-ledger engine, embedded in Rocq

    The development follows the Python sources:
    - [puppy/utils/real_time_data.py]  (market-hours check),
    - [puppy/utils/portfolio.py]       (the ledger: [Portfolio.buy], [Portfolio.sell]),
    - [puppy/models/llm.py]            (the risk filter [_apply_risk_rules]),
    - [puppy/models/memory.py]         (the two-tier [LayeredMemory]),
    - [trading_system.py]              ([LayeredMemorySystem], [PaperTradingEngine],
                                        [TechnicalAnalyzer]).

    Conventions.  Python [float]s are idealised as exact rationals ([Q]);
    Python [int]s are [Z].  [int(x)] on a float truncates towards zero.
    Rounding is not modelled: where a statement speaks of a product, a
    quotient or a truncated quotient, it speaks of the exact value.
    A division whose divisor is zero raises [ZeroDivisionError], as it does
    for Python's [int] and [float].  Methods that mutate [self] inside a
    [try]/[except] are written in a small state monad whose state survives a
    raised exception, exactly as the attributes of a Python object do. *)

From Stdlib Require Import ZArith QArith Qabs Qround Lqa Lia.
From stdpp Require Import gmap strings list fin_maps sorting.

Open Scope Z_scope.

(* ===================================================================== *)
(** * Numbers *)
(* ===================================================================== *)

Module Num.

(** [int(x)] for a float [x]: truncation towards zero. *)
Definition py_int (x : Q) : Z := Z.quot (Qnum x) (Z.pos (Qden x)).

(** [float(n)] / the implicit promotion of an [int] in mixed arithmetic. *)
Definition of_int (n : Z) : Q := inject_Z n.

Definition Qltb (a b : Q) : bool := negb (Qle_bool b a).
Definition Qgtb (a b : Q) : bool := Qltb b a.
Definition Qleb (a b : Q) : bool := Qle_bool a b.
Definition Qgeb (a b : Q) : bool := Qle_bool b a.
Definition Qis0 (a : Q) : bool := Qeq_bool a 0.

(** Python's [min] on floats. [min(a, b)] returns [b] only when [b < a]. *)
Definition py_min (a b : Q) : Q := if Qltb b a then b else a.

End Num.
Export Num.

(* ===================================================================== *)
(** * Exceptions and the state monad of a mutable object *)
(* ===================================================================== *)

Inductive exn : Type :=
| ZeroDivisionError.

(** The three ways a block of statements can end: it falls through with a
    value, it executes [return r], or it raises. *)
Inductive outcome (R A : Type) : Type :=
| Normal (a : A)
| Returned (r : R)
| Raised (e : exn).
Arguments Normal {R A} a.
Arguments Returned {R A} r.
Arguments Raised {R A} e.

(** A block over an object of type [S], inside a function returning [R]. *)
Definition M (S R A : Type) : Type := S -> outcome R A * S.

Definition ret {S R A} (a : A) : M S R A := fun s => (Normal a, s).

Definition bind {S R A B} (m : M S R A) (k : A -> M S R B) : M S R B :=
  fun s =>
    match m s with
    | (Normal a, s') => k a s'
    | (Returned r, s') => (Returned r, s')
    | (Raised e, s') => (Raised e, s')
    end.

Definition return_ {S R A} (r : R) : M S R A := fun s => (Returned r, s).
Definition raise {S R A} (e : exn) : M S R A := fun s => (Raised e, s).
Definition get {S R} : M S R S := fun s => (Normal s, s).
Definition modify {S R} (f : S -> S) : M S R unit := fun s => (Normal tt, f s).

(** [a / b] on floats. *)
Definition fdiv {S R} (a b : Q) : M S R Q :=
  if Qis0 b then raise ZeroDivisionError else ret (a / b)%Q.

Declare Scope py_scope.
Delimit Scope py_scope with py.
Notation "'do' x <- c ; k" := (bind c (fun x => k))
  (at level 10, x name, c at level 100, k at level 200) : py_scope.
Notation "'do' ' p <- c ; k" := (bind c (fun x => match x with p => k end))
  (at level 10, p pattern, c at level 100, k at level 200) : py_scope.
Notation "c ;; k" := (bind c (fun _ => k))
  (at level 100, k at level 200, right associativity) : py_scope.

(** [try: body except Exception: return on_exn] as the whole body of a
    function: the result of the call and the object as the call leaves it.
    A body that falls off its end returns [dflt] (Python's [None]). *)
Definition try_except {S R} (body : M S R unit) (on_exn dflt : R) : S -> R * S :=
  fun s =>
    match body s with
    | (Normal _, s') => (dflt, s')
    | (Returned r, s') => (r, s')
    | (Raised _, s') => (on_exn, s')
    end.

(* ===================================================================== *)
(** * puppy/utils/real_time_data.py *)
(* ===================================================================== *)

Module RealTimeDataManager.

(** [datetime.time]: hour, minute, second, microsecond.  Python compares
    times field by field; on valid times that is the order of the
    microsecond of the day. *)
Record time := mk_time { hour : Z; minute : Z; second : Z; microsecond : Z }.

Definition time_key (t : time) : Z :=
  ((hour t * 60 + minute t) * 60 + second t) * 1000000 + microsecond t.

Definition time_le (a b : time) : bool := time_key a <=? time_key b.

Definition market_open : time := mk_time 9 15 0 0.
Definition market_close : time := mk_time 15 30 0 0.

(** [is_market_open]: [current_time] is [datetime.now(self.ist).time()]. *)
Definition is_market_open (current_time : time) : bool :=
  time_le market_open current_time && time_le current_time market_close.

End RealTimeDataManager.

(** What one call of a ledger method observes of the outside world. *)
Record world := mk_world {
  (** [datetime.now(ist).time()] *)
  ist_now : RealTimeDataManager.time;
  (** the dictionary returned by [get_multiple_real_time_prices];
      [None] stands for a missing key as well as for a [None] value *)
  current_prices : string -> option Q;
  (** [pd.Timestamp.now()] *)
  timestamp_now : Z
}.

(* ===================================================================== *)
(** * puppy/utils/portfolio.py *)
(* ===================================================================== *)

Module Portfolio.
Import RealTimeDataManager.
Local Open Scope py_scope.

(** An entry of [self.positions]: [{"quantity": ..., "price": ...}]. *)
Record position := mk_position { pos_quantity : Z; pos_price : Q }.

(** An entry of [self.transactions]. *)
Record transaction := mk_transaction {
  tx_action : string;
  tx_symbol : string;
  tx_quantity : Z;
  tx_price : Q;
  tx_value : Q;
  tx_timestamp : Z
}.

(** The [trade_data] dictionary handed to [TradeLogger.log_trade]. *)
Record trade_data := mk_trade_data {
  td_timestamp : Z;
  td_action : string;
  td_symbol : string;
  td_quantity : Z;
  td_price : Q;
  td_value : Q;
  td_cash_after_trade : Q;
  td_portfolio_value : Q;
  td_profit_loss : Q;
  td_profit_loss_pct : Q;
  td_reason : string
}.

(** The attributes of a [Portfolio] object.  [logged] is the sequence of
    rows handed to [self.trade_logger.log_trade], which swallows its own
    I/O errors and never raises. *)
Record portfolio := mk_portfolio {
  initial_capital : Q;
  cash : Q;
  position_size_limit : Q;
  positions : gmap string position;
  transactions : list transaction;
  logged : list trade_data
}.

Definition set_cash (c : Q) (self : portfolio) : portfolio :=
  mk_portfolio (initial_capital self) c (position_size_limit self)
               (positions self) (transactions self) (logged self).
Definition set_positions (ps : gmap string position) (self : portfolio) : portfolio :=
  mk_portfolio (initial_capital self) (cash self) (position_size_limit self)
               ps (transactions self) (logged self).
Definition append_transaction (t : transaction) (self : portfolio) : portfolio :=
  mk_portfolio (initial_capital self) (cash self) (position_size_limit self)
               (positions self) (transactions self ++ [t]) (logged self).
Definition log_trade (d : trade_data) (self : portfolio) : portfolio :=
  mk_portfolio (initial_capital self) (cash self) (position_size_limit self)
               (positions self) (transactions self) (logged self ++ [d]).

(** [Portfolio.__init__] *)
Definition init (initial_capital position_size_limit : Q) : portfolio :=
  mk_portfolio initial_capital initial_capital position_size_limit ∅ [] [].

(** [current_prices.get(symbol) or pos["price"]]: a missing, [None] or zero
    quote falls back to the stored price. *)
Definition price_or_stored (w : world) (symbol : string) (pos : position) : Q :=
  match current_prices w symbol with
  | Some p => if Qis0 p then pos_price pos else p
  | None => pos_price pos
  end.

(** [get_total_value] *)
Definition get_total_value (w : world) (self : portfolio) : Q :=
  if decide (positions self = ∅) then cash self
  else
    let position_value :=
      map_fold (fun symbol pos acc =>
                  (acc + of_int (pos_quantity pos) * price_or_stored w symbol pos)%Q)
               0%Q (positions self) in
    (cash self + position_value)%Q.

(** [_record_transaction] *)
Definition _record_transaction {R} (w : world) (action symbol : string)
    (quantity : Z) (price : Q) (reason : string)
    (profit_loss profit_loss_pct : Q) : M portfolio R unit :=
  let timestamp := timestamp_now w in
  let value := (of_int quantity * price)%Q in
  do self <- get;
  let portfolio_value := get_total_value w self in
  modify (append_transaction
            (mk_transaction action symbol quantity price value timestamp));;
  do self <- get;
  let is_sell := String.eqb action "SELL" in
  modify (log_trade
            (mk_trade_data timestamp action symbol quantity price value
               (cash self) portfolio_value
               (if is_sell then profit_loss else 0%Q)
               (if is_sell then profit_loss_pct else 0%Q)
               reason)).

(** [buy] *)
Definition buy (w : world) (symbol : string) (quantity : Z) (price : Q)
    (reason : string) : portfolio -> bool * portfolio :=
  try_except
    (let cost := (of_int quantity * price)%Q in
     do self <- get;
     (* Check if we have enough cash *)
     do '(quantity, cost) <-
       (if Qgtb cost (cash self) then
          (* Try to buy with available cash *)
          do q <- fdiv (cash self) price;
          let quantity := py_int q in
          if quantity <? 100 then return_ false
          else ret (quantity, (of_int quantity * price)%Q)
        else ret (quantity, cost));
     (* Check position size limit *)
     let position_value := cost in
     let portfolio_value := get_total_value w self in
     do ratio <- fdiv position_value portfolio_value;
     do '(quantity, cost) <-
       (if Qgtb ratio (position_size_limit self) then
          (* Adjust quantity to meet limit *)
          do mq <- fdiv (portfolio_value * position_size_limit self)%Q price;
          let max_quantity := py_int mq in
          if max_quantity <? 100 then return_ false
          else ret (max_quantity, (of_int max_quantity * price)%Q)
        else ret (quantity, cost));
     (* Execute trade *)
     modify (fun self => set_cash (cash self - cost)%Q self);;
     do self <- get;
     match positions self !! symbol with
     | Some current_pos =>
         let total_quantity := pos_quantity current_pos + quantity in
         let total_cost :=
           (of_int (pos_quantity current_pos) * pos_price current_pos + cost)%Q in
         do avg_price <- fdiv total_cost (of_int total_quantity);
         modify (fun self =>
           set_positions (<[symbol := mk_position total_quantity avg_price]>
                            (positions self)) self)
     | None =>
         modify (fun self =>
           set_positions (<[symbol := mk_position quantity price]>
                            (positions self)) self)
     end;;
     _record_transaction w "BUY" symbol quantity price reason 0%Q 0%Q;;
     return_ true)
    false false.

(** [sell] *)
Definition sell (w : world) (symbol : string) (quantity : Z) (price : Q)
    (reason : string) : portfolio -> bool * portfolio :=
  try_except
    ((* Check if market is open *)
     (if negb (is_market_open (ist_now w)) then return_ false else ret tt);;
     do self <- get;
     match positions self !! symbol with
     | None => return_ false
     | Some position =>
         let quantity :=
           if quantity >? pos_quantity position
           then pos_quantity position (* Sell entire position *)
           else quantity in
         (* Execute trade *)
         let proceeds := (of_int quantity * price)%Q in
         modify (fun self => set_cash (cash self + proceeds)%Q self);;
         (* Calculate profit/loss *)
         let entry_price := pos_price position in
         let profit_loss := ((price - entry_price) * of_int quantity)%Q in
         do r <- fdiv (price - entry_price)%Q entry_price;
         let profit_loss_pct := (r * 100)%Q in
         (* Update position *)
         let remaining_quantity := pos_quantity position - quantity in
         (if remaining_quantity >? 0 then
            modify (fun self =>
              set_positions (<[symbol := mk_position remaining_quantity
                                           (pos_price position)]>
                               (positions self)) self)
          else
            modify (fun self => set_positions (delete symbol (positions self)) self));;
         _record_transaction w "SELL" symbol quantity price reason
                             profit_loss profit_loss_pct;;
         return_ true
     end)
    false false.

End Portfolio.

(* ===================================================================== *)
(** * puppy/models/llm.py: the risk filter *)
(* ===================================================================== *)

Module GeminiTrader.
Local Open Scope py_scope.

(** A trading decision (intent) as [_parse_decisions] produces it. *)
Record decision := mk_decision {
  action : string;
  quantity : Z;
  price : Q;
  reason : string
}.

Definition set_quantity (q : Z) (d : decision) : decision :=
  mk_decision (action d) q (price d) (reason d).

(** The keys of [portfolio_state] the filter reads. *)
Record portfolio_state := mk_portfolio_state {
  ps_cash : Q;
  ps_total_value : Q
}.

(** A Python [dict] with string keys, in insertion order. *)
Definition dict (V : Type) : Type := list (string * V).

(** [d[k] = v]: overwrite in place, or append a new key at the end. *)
Fixpoint dict_set {V} (k : string) (v : V) (d : dict V) : dict V :=
  match d with
  | [] => [(k, v)]
  | (k', v') :: d' =>
      if String.eqb k k' then (k, v) :: d' else (k', v') :: dict_set k v d'
  end.

(** The two locals the loop of [_apply_risk_rules] updates. *)
Record loop_state := mk_loop_state {
  filtered_decisions : dict decision;
  available_cash : Q
}.

Definition spend (amount : Q) (s : loop_state) : loop_state :=
  mk_loop_state (filtered_decisions s) (available_cash s - amount)%Q.
Definition keep (symbol : string) (d : decision) (s : loop_state) : loop_state :=
  mk_loop_state (dict_set symbol d (filtered_decisions s)) (available_cash s).

(** The body of the [for] loop; [return_ tt] is [continue]. *)
Definition iteration (position_size_limit : Q) (symbol : string)
    (decision : decision) : M loop_state unit unit :=
  do decision <-
    (if String.eqb (action decision) "buy" then
       (* Check if we have enough cash *)
       let cost := (of_int (quantity decision) * price decision)%Q in
       do s <- get;
       (if Qgtb cost (available_cash s) then return_ tt else ret tt);;
       (* Check position size limit *)
       do decision <-
         (if Qgtb cost position_size_limit then
            (* Adjust quantity to meet limit *)
            do q <- fdiv position_size_limit (price decision);
            let max_quantity := py_int q in
            if max_quantity <? 100 then return_ tt
            else ret (set_quantity (Z.min max_quantity 1000) decision)
          else ret decision);
       modify (spend (of_int (quantity decision) * price decision)%Q);;
       ret decision
     else ret decision);
  modify (keep symbol decision).

(** The [for] loop.  Only [KeyError] and [TypeError] are caught inside it, so
    a [ZeroDivisionError] leaves the function. *)
Fixpoint for_each (position_size_limit : Q) (items : dict decision)
    (s : loop_state) : exn + loop_state :=
  match items with
  | [] => inr s
  | (symbol, decision) :: rest =>
      match iteration position_size_limit symbol decision s with
      | (Raised e, _) => inl e
      | (_, s') => for_each position_size_limit rest s'
      end
  end.

(** [_apply_risk_rules] *)
Definition _apply_risk_rules (decisions : dict decision)
    (portfolio_state : portfolio_state) : exn + dict decision :=
  let available_cash := ps_cash portfolio_state in
  let portfolio_value := ps_total_value portfolio_state in
  let position_size_limit := (portfolio_value * (2 # 10))%Q in (* 20% limit *)
  match for_each position_size_limit decisions (mk_loop_state [] available_cash) with
  | inl e => inl e
  | inr s => inr (filtered_decisions s)
  end.

End GeminiTrader.

(* ===================================================================== *)
(** * puppy/models/memory.py *)
(* ===================================================================== *)

Module LayeredMemory.

(** One row of [data["data"]].  [None] is an absent key; for ["20d_MA"],
    ["50d_MA"] and ["Volume_MA"], which the simulation fills with [None] when
    the average is undefined, it is a [None] value as well. *)
Record stock_data := mk_stock_data {
  Volume : option Q;
  Volume_MA : option Q;
  Daily_Return : option Q;
  RSI : option Q;
  MA_20d : option Q;
  MA_50d : option Q
}.

(** The [data] argument of [add_memory]: [None] when it has no ["data"] key. *)
Definition market_data : Type := option (list stock_data).

(** A memory entry, as [_create_memory_entry] builds it. *)
Record entry := mk_entry {
  timestamp : Z;
  type : string;
  data : market_data;
  importance_score : Q
}.

(** [self.config["memory"]] *)
Record config := mk_config {
  short_term_capacity : Z;
  long_term_capacity : Z;
  relevance_threshold : Q
}.

(** The two lists of a [LayeredMemory] object. *)
Record memory := mk_memory {
  short_term : list entry;
  long_term : list entry
}.

Definition init : memory := mk_memory [] [].

(** [d.get(key, default)] *)
Definition get_or (default : Q) (v : option Q) : Q :=
  match v with Some x => x | None => default end.

(** The body of the loop over [data["data"]] in [_calculate_importance]:
    the score after looking at one row. *)
Definition score_row (importance : Q) (stock_data : stock_data) : Q :=
  (* Volume spike *)
  let volume := get_or 0 (Volume stock_data) in
  let importance :=
    match Volume_MA stock_data with
    | Some volume_ma =>
        if Qgtb volume (volume_ma * (15 # 10)) then (importance + (3 # 10))%Q
        else importance
    | None => importance
    end in
  (* Price movement *)
  let daily_return := get_or 0 (Daily_Return stock_data) in
  let importance :=
    if Qgtb (Qabs daily_return) (5 # 100) then (importance + (2 # 10))%Q
    else importance in
  (* Technical indicators *)
  let rsi := get_or 50 (RSI stock_data) in
  let importance :=
    if Qltb rsi 30 || Qgtb rsi 70 then (importance + (2 # 10))%Q
    else importance in
  (* Moving average crossovers *)
  match MA_20d stock_data, MA_50d stock_data with
  | Some ma_20, Some ma_50 =>
      if Qgtb ma_20 ma_50 then (importance + (3 # 10))%Q
      else if Qltb ma_20 ma_50 then (importance + (3 # 10))%Q
      else importance
  | _, _ => importance
  end.

(** [_calculate_importance] *)
Definition _calculate_importance (data : market_data) : Q :=
  let importance :=
    match data with
    | Some rows => fold_left score_row rows 0%Q
    | None => 0%Q
    end in
  py_min importance 1.

(** [_create_memory_entry]; [now] is [datetime.now()]. *)
Definition _create_memory_entry (now : Z) (data : market_data)
    (memory_type : string) : entry :=
  mk_entry now memory_type data (_calculate_importance data).

(** The sort key [(x["importance_score"], x["timestamp"])] and the strict
    order of Python tuples on it. *)
Definition key_lt (x y : entry) : bool :=
  Qltb (importance_score x) (importance_score y)
  || (Qeq_bool (importance_score x) (importance_score y)
      && (timestamp x <? timestamp y)).

(** [list.sort(key=..., reverse=True)]: a stable sort into descending
    order; entries with equal keys keep their relative order. *)
Fixpoint insert_desc (x : entry) (l : list entry) : list entry :=
  match l with
  | [] => [x]
  | y :: l' => if key_lt x y then y :: insert_desc x l' else x :: l
  end.

Definition sort_desc (l : list entry) : list entry :=
  foldr insert_desc [] l.

(** The slice [l[:n]] for an [int] [n] of either sign. *)
Definition slice_to {A} (n : Z) (l : list A) : list A :=
  if 0 <=? n then take (Z.to_nat n) l
  else take (length l - Z.to_nat (- n))%nat l.

(** [if len(l) > n: l = l[:n]] *)
Definition trim {A} (n : Z) (l : list A) : list A :=
  if Z.of_nat (length l) >? n then slice_to n l else l.

(** [_maintain_memory_size] *)
Definition _maintain_memory_size (cfg : config) (self : memory) : memory :=
  let short_term := sort_desc (short_term self) in
  let long_term := sort_desc (long_term self) in
  mk_memory (trim (short_term_capacity cfg) short_term)
            (trim (long_term_capacity cfg) long_term).

(** [add_memory].  Nothing in its body can raise on well-typed rows, so the
    [try]/[except] around it is transparent. *)
Definition add_memory (cfg : config) (now : Z) (data : market_data)
    (memory_type : string) (self : memory) : memory :=
  let entry := _create_memory_entry now data memory_type in
  (* Add to short-term memory *)
  let short_term := short_term self ++ [entry] in
  (* Check if it should be added to long-term memory *)
  let long_term :=
    if Qgeb (importance_score entry) (relevance_threshold cfg)
    then long_term self ++ [entry] else long_term self in
  (* Maintain memory size limits *)
  _maintain_memory_size cfg (mk_memory short_term long_term).

(** [retrieve_relevant_memories]; the [query] is not used. *)
Definition retrieve_relevant_memories (cfg : config) (query : string)
    (self : memory) : list entry :=
  let relevant (memory : entry) :=
    Qgeb (importance_score memory) (relevance_threshold cfg) in
  List.filter relevant (short_term self) ++ List.filter relevant (long_term self).

End LayeredMemory.

(* ===================================================================== *)
(** * trading_system.py *)
(* ===================================================================== *)

Module TradingSystem.
Local Open Scope py_scope.

(** ** [TechnicalAnalyzer] *)

(** A [numpy.float64] read out of a pandas column: a finite value, an
    infinity, or NaN.  Unlike Python's own floats, dividing these by zero
    does not raise. *)
Inductive npfloat : Type :=
| Fin (q : Q)
| Inf (negative : bool)
| NaN.

Definition np_sub (a b : npfloat) : npfloat :=
  match a, b with
  | Fin x, Fin y => Fin (x - y)
  | NaN, _ | _, NaN => NaN
  | Inf s, Fin _ => Inf s
  | Fin _, Inf s => Inf (negb s)
  | Inf s, Inf t => if Bool.eqb s t then NaN else Inf s
  end.

(** [(a - b) / b * 100] on finite column values. *)
Definition pct_change (a b : Q) : npfloat :=
  if Qis0 b then
    if Qis0 (a - b) then NaN else Inf (Qltb (a - b) 0)
  else Fin ((a - b) / b * 100).

(** [pd.isna(value)] *)
Definition isna (v : npfloat) : bool :=
  match v with NaN => true | _ => false end.

(** A row of the price/volume [DataFrame]. *)
Record bar := mk_bar { Open : Q; High : Q; Low : Q; Close : Q; Volume : Q }.

(** [series.iloc[-k]] for [1 <= k <= len(series)]. *)
Definition iloc_neg (k : nat) (series : list Q) : Q :=
  nth (length series - k) series 0%Q.

(** [data.tail(n)] *)
Definition tail {A} (n : nat) (l : list A) : list A := drop (length l - n) l.

Definition series_min (l : list Q) : Q :=
  match l with
  | [] => 0%Q
  | x :: l' => fold_left (fun m y => if Qltb y m then y else m) l' x
  end.
Definition series_max (l : list Q) : Q :=
  match l with
  | [] => 0%Q
  | x :: l' => fold_left (fun m y => if Qltb m y then y else m) l' x
  end.

(** [series.rolling(window=n).mean().iloc[-1]] once [n] rows exist. *)
Definition rolling_mean_last (n : nat) (series : list Q) : Q :=
  (fold_left Qplus (tail n series) 0 / inject_Z (Z.of_nat n))%Q.

Section TechnicalAnalyzer.

(** The last value ([.iloc[-1]]) of the series computed by the external
    [ta] library on the closing prices; NaN while a window is not filled. *)
Variable sma_indicator : list Q -> nat -> npfloat.
Variable ema_indicator : list Q -> nat -> npfloat.
Variable rsi : list Q -> nat -> npfloat.
Variable macd : list Q -> npfloat.
Variable macd_signal : list Q -> npfloat.
Variable bollinger_hband : list Q -> npfloat.
Variable bollinger_lband : list Q -> npfloat.
Variable bollinger_mavg : list Q -> npfloat.

(** [calculate_indicators]; the empty list is the empty dictionary [{}]. *)
Definition calculate_indicators (data : list bar) : list (string * npfloat) :=
  if bool_decide (data = []) || (Z.of_nat (length data) <? 50) then []
  else
    let close := map Close data in
    let volume := map Volume data in
    let macd_line := macd close in
    let macd_sig := macd_signal close in
    let recent_data := tail 20 data in
    let indicators :=
      [ (* Moving Averages *)
        ("sma_20", sma_indicator close 20);
        ("sma_50", sma_indicator close 50);
        ("ema_12", ema_indicator close 12);
        ("ema_26", ema_indicator close 26);
        (* RSI *)
        ("rsi", rsi close 14);
        (* MACD *)
        ("macd", macd_line);
        ("macd_signal", macd_sig);
        ("macd_histogram", np_sub macd_line macd_sig);
        (* Bollinger Bands *)
        ("bb_upper", bollinger_hband close);
        ("bb_lower", bollinger_lband close);
        ("bb_middle", bollinger_mavg close);
        (* Support and Resistance *)
        ("support", Fin (series_min (map Low recent_data)));
        ("resistance", Fin (series_max (map High recent_data)));
        (* Volume indicators *)
        ("volume_sma", Fin (rolling_mean_last 20 volume));
        ("current_volume", Fin (of_int (py_int (iloc_neg 1 volume))));
        (* Price metrics *)
        ("current_price", Fin (iloc_neg 1 close));
        ("price_change_1d", pct_change (iloc_neg 1 close) (iloc_neg 2 close));
        ("price_change_5d", pct_change (iloc_neg 1 close) (iloc_neg 6 close)) ] in
    (* Handle any NaN values *)
    map (fun kv => if isna (snd kv) then (fst kv, Fin 0) else kv) indicators.

End TechnicalAnalyzer.

(** ** [LayeredMemorySystem] *)

(** The keys of [content] that the score reads; [None] is an absent key. *)
Record content := mk_content {
  price_change_1d : option Q;
  sentiment : option Q;
  c_rsi : option Q
}.

Definition get_or (default : Q) (v : option Q) : Q :=
  match v with Some x => x | None => default end.

(** [calculate_importance_score] *)
Definition calculate_importance_score (data_type : string) (content : content) : Q :=
  let base_score := (5 # 10)%Q in
  let base_score :=
    if String.eqb data_type "PRICE" then
      (* Price changes are important *)
      let price_change := Qabs (get_or 0 (price_change_1d content)) in
      (base_score + py_min (price_change / 10) (4 # 10))%Q
    else if String.eqb data_type "NEWS" then
      (* News sentiment extremes are important *)
      let sentiment := Qabs (get_or 0 (sentiment content)) in
      (base_score + py_min sentiment (4 # 10))%Q
    else if String.eqb data_type "TECHNICAL" then
      (* Technical signals are important *)
      let rsi := get_or 50 (c_rsi content) in
      if Qgtb rsi 70 || Qltb rsi 30 then (base_score + (3 # 10))%Q
      else base_score
    else if String.eqb data_type "TRADE" then
      (* All trades are important *)
      (8 # 10)%Q
    else base_score in
  py_min base_score 1.

(** ** [PaperTradingEngine] *)

(** An entry of [self.portfolio]: [{'quantity': int, 'avg_price': float}]. *)
Record holding := mk_holding { quantity : Z; avg_price : Q }.

Record engine := mk_engine {
  cash_balance : Q;
  portfolio : gmap string holding
}.

Definition max_positions : Z := 10.

(** [can_buy] *)
Definition can_buy (self : engine) (symbol : string) (price : Q) (quantity : Z) : bool :=
  let required_cash := (price * of_int quantity)%Q in
  Qgeb (cash_balance self) required_cash
  && (Z.of_nat (size (portfolio self)) <? max_positions).

(** [can_sell] *)
Definition can_sell (self : engine) (symbol : string) (quantity : Z) : bool :=
  match portfolio self !! symbol with
  | Some h => TradingSystem.quantity h >=? quantity
  | None => false
  end.

(** [execute_buy]; it has no [try], so a raised exception reaches the
    caller: the outcome is kept as it is. *)
Definition execute_buy (symbol : string) (price : Q) (quantity : Z)
    (self : engine) : outcome bool unit * engine :=
  ((if negb (can_buy self symbol price quantity) then return_ false else ret tt);;
   let cost := (price * of_int quantity)%Q in
   modify (fun self => mk_engine (cash_balance self - cost) (portfolio self));;
   do self <- get;
   match portfolio self !! symbol with
   | Some h =>
       (* Update average price *)
       let current_qty := TradingSystem.quantity h in
       let current_avg := avg_price h in
       let new_qty := current_qty + quantity in
       do new_avg <- fdiv (of_int current_qty * current_avg
                           + of_int quantity * price)%Q (of_int new_qty);
       modify (fun self =>
         mk_engine (cash_balance self)
                   (<[symbol := mk_holding new_qty new_avg]> (portfolio self)))
   | None =>
       modify (fun self =>
         mk_engine (cash_balance self)
                   (<[symbol := mk_holding quantity price]> (portfolio self)))
   end;;
   return_ true) self.

(** [execute_sell] *)
Definition execute_sell (symbol : string) (price : Q) (quantity : Z)
    (self : engine) : bool * engine :=
  if negb (can_sell self symbol quantity) then (false, self)
  else
    let proceeds := (price * of_int quantity)%Q in
    let self := mk_engine (cash_balance self + proceeds) (portfolio self) in
    (* self.portfolio[symbol]['quantity'] -= quantity *)
    let self :=
      mk_engine (cash_balance self)
        (alter (fun h => mk_holding (TradingSystem.quantity h - quantity) (avg_price h))
               symbol (portfolio self)) in
    (* Remove from portfolio if quantity becomes 0 *)
    let self :=
      match portfolio self !! symbol with
      | Some h =>
          if TradingSystem.quantity h =? 0
          then mk_engine (cash_balance self) (delete symbol (portfolio self))
          else self
      | None => self
      end in
    (true, self).

End TradingSystem.

(* ===================================================================== *)
(** * Properties *)
(* ===================================================================== *)

(** ** Comparisons on rationals *)

Section Comparisons.
Local Open Scope Q_scope.

Lemma Qltb_true a b : Qltb a b = true <-> a < b.
Proof.
  unfold Qltb. rewrite negb_true_iff, <- not_true_iff_false, Qle_bool_iff.
  split; [apply Qnot_le_lt | apply Qlt_not_le].
Qed.

Lemma Qltb_false a b : Qltb a b = false <-> b <= a.
Proof. unfold Qltb. rewrite negb_false_iff. apply Qle_bool_iff. Qed.

Lemma Qgtb_true a b : Qgtb a b = true <-> b < a.
Proof. apply Qltb_true. Qed.

Lemma Qgtb_false a b : Qgtb a b = false <-> a <= b.
Proof. apply Qltb_false. Qed.

Lemma Qgeb_true a b : Qgeb a b = true <-> b <= a.
Proof. apply Qle_bool_iff. Qed.

Lemma Qis0_true a : Qis0 a = true <-> a == 0.
Proof. apply Qeq_bool_iff. Qed.

Lemma Qis0_false a : Qis0 a = false <-> ~ a == 0.
Proof. rewrite <- not_true_iff_false, Qis0_true. tauto. Qed.

Lemma py_min_le_l a b : py_min a b <= a.
Proof.
  unfold py_min. destruct (Qltb b a) eqn:E; [|lra].
  apply Qltb_true in E. lra.
Qed.

Lemma py_min_le_r a b : py_min a b <= b.
Proof.
  unfold py_min. destruct (Qltb b a) eqn:E; [lra|].
  apply Qltb_false in E. lra.
Qed.

Lemma py_min_glb a b c : c <= a -> c <= b -> c <= py_min a b.
Proof. unfold py_min. destruct (Qltb b a); auto. Qed.

End Comparisons.

(** ** The risk filter *)

Section RiskFilter.
Import GeminiTrader.

(** C1 (as amended): with total value 1,000,000 (ceiling 200,000) and at
    least 300,000 of cash, a BUY of 3,000 shares at 100 is kept, not
    rejected, and its quantity becomes 1,000: the ceiling quantity
    2,000 = 200,000/100 is further capped at the maximum lot of 1,000. *)
Theorem risk_filter_shrinks_to_lot_cap (symbol reason : string) (cash : Q) :
  (300000 <= cash)%Q ->
  _apply_risk_rules [(symbol, mk_decision "buy" 3000 100 reason)]
                    (mk_portfolio_state cash 1000000)
  = inr [(symbol, mk_decision "buy" 1000 100 reason)].
Proof.
  intros Hcash.
  assert (Henough : Qgtb (of_int 3000 * 100) cash = false).
  { apply Qgtb_false. unfold of_int, inject_Z. lra. }
  unfold _apply_risk_rules, for_each, iteration, bind, get; cbn - [Qgtb of_int].
  rewrite Henough. reflexivity.
Qed.

Lemma risk_filter_shrinks_to_lot_cap_witness :
  (300000 <= 1000000)%Q /\
  _apply_risk_rules [("X", mk_decision "buy" 3000 100 "breakout")]
                    (mk_portfolio_state 1000000 1000000)
  = inr [("X", mk_decision "buy" 1000 100 "breakout")].
Proof.
  assert (H : (300000 <= 1000000)%Q) by (unfold Qle; simpl; lia).
  split; [exact H | apply (risk_filter_shrinks_to_lot_cap "X" "breakout" 1000000 H)].
Defined.

(** The scenario as the specification words it (quantity 2,000) does not
    come out of the filter. *)
Lemma risk_filter_not_2000 :
  ~ (exists d,
        _apply_risk_rules [("X", mk_decision "buy" 3000 100 "")]
                          (mk_portfolio_state 1000000 1000000)
        = inr [("X", d)]
        /\ quantity d = 2000).
Proof. intros (d & Hrun & Hq). vm_compute in Hrun. inversion Hrun; subst d. discriminate Hq. Qed.

End RiskFilter.

(** ** The ledger: what [buy] and [sell] compute *)

Section Ledger.
Import Portfolio RealTimeDataManager.

(** The object after [_record_transaction] has run on it. *)
Definition recorded (w : world) (action symbol : string) (quantity : Z)
    (price : Q) (reason : string) (profit_loss profit_loss_pct : Q)
    (s : portfolio) : portfolio :=
  let value := (of_int quantity * price)%Q in
  let is_sell := String.eqb action "SELL" in
  log_trade
    (mk_trade_data (timestamp_now w) action symbol quantity price value
       (cash s) (get_total_value w s)
       (if is_sell then profit_loss else 0%Q)
       (if is_sell then profit_loss_pct else 0%Q) reason)
    (append_transaction
       (mk_transaction action symbol quantity price value (timestamp_now w)) s).

(** The order size [buy] settles on before it touches the ledger; [None]
    when it gives up (an explicit [return False], or a division by zero). *)
Definition shrink_to_cash (quantity : Z) (price : Q) (s : portfolio) : option Z :=
  if Qgtb (of_int quantity * price) (cash s) then
    if Qis0 price then None
    else
      let q := py_int (cash s / price) in
      if q <? 100 then None else Some q
  else Some quantity.

Definition shrink_to_limit (w : world) (quantity : Z) (price : Q)
    (s : portfolio) : option Z :=
  let portfolio_value := get_total_value w s in
  if Qis0 portfolio_value then None
  else if Qgtb (of_int quantity * price / portfolio_value) (position_size_limit s) then
    if Qis0 price then None
    else
      let q := py_int (portfolio_value * position_size_limit s / price) in
      if q <? 100 then None else Some q
  else Some quantity.

Definition buy_quantity (w : world) (quantity : Z) (price : Q)
    (s : portfolio) : option Z :=
  match shrink_to_cash quantity price s with
  | Some q => shrink_to_limit w q price s
  | None => None
  end.

(** The "Execute trade" part of [buy] for the settled quantity. *)
Definition buy_execute (w : world) (symbol : string) (quantity : Z) (price : Q)
    (reason : string) (s : portfolio) : bool * portfolio :=
  let cost := (of_int quantity * price)%Q in
  let s1 := set_cash (cash s - cost) s in
  match positions s !! symbol with
  | Some cur =>
      let total_quantity := pos_quantity cur + quantity in
      let total_cost := (of_int (pos_quantity cur) * pos_price cur + cost)%Q in
      if Qis0 (of_int total_quantity) then (false, s1)
      else
        (true,
         recorded w "BUY" symbol quantity price reason 0 0
           (set_positions
              (<[symbol := mk_position total_quantity
                             (total_cost / of_int total_quantity)]> (positions s))
              s1))
  | None =>
      (true,
       recorded w "BUY" symbol quantity price reason 0 0
         (set_positions (<[symbol := mk_position quantity price]> (positions s)) s1))
  end.

Lemma buy_eq w symbol quantity price reason s :
  buy w symbol quantity price reason s =
  match buy_quantity w quantity price s with
  | Some q => buy_execute w symbol q price reason s
  | None => (false, s)
  end.
Proof.
  destruct s as [ic c lim ps txs lg].
  cbv [buy buy_quantity shrink_to_cash shrink_to_limit buy_execute
       try_except bind fdiv get ret return_ raise modify
       _record_transaction recorded
       set_cash set_positions append_transaction log_trade
       initial_capital cash position_size_limit positions transactions logged].
  repeat (case_match; simplify_eq; try reflexivity; try congruence).
Qed.

(** The quantity [sell] settles on: the request, clamped to the holding. *)
Definition sell_quantity (quantity : Z) (held : position) : Z :=
  if quantity >? pos_quantity held then pos_quantity held else quantity.

Lemma sell_eq w symbol quantity price reason s :
  sell w symbol quantity price reason s =
  if negb (is_market_open (ist_now w)) then (false, s)
  else
    match positions s !! symbol with
    | None => (false, s)
    | Some held =>
        let q := sell_quantity quantity held in
        let s1 := set_cash (cash s + of_int q * price) s in
        if Qis0 (pos_price held) then (false, s1)
        else
          (true,
           recorded w "SELL" symbol q price reason
             ((price - pos_price held) * of_int q)
             ((price - pos_price held) / pos_price held * 100)
             (set_positions
                (if pos_quantity held - q >? 0
                 then <[symbol := mk_position (pos_quantity held - q)
                                    (pos_price held)]> (positions s)
                 else delete symbol (positions s))
                s1))
    end.
Proof.
  destruct s as [ic c lim ps txs lg].
  cbv [sell sell_quantity try_except bind fdiv get ret return_ raise modify
       _record_transaction recorded
       set_cash set_positions append_transaction log_trade
       initial_capital cash position_size_limit positions transactions logged].
  repeat (case_match; simplify_eq; try reflexivity; try congruence).
Qed.

End Ledger.

(** ** The ledger: scenarios and guards *)

Section LedgerClaims.
Import Portfolio RealTimeDataManager.

Lemma get_total_value_no_positions w s :
  positions s = ∅ -> get_total_value w s = cash s.
Proof. intros H. unfold get_total_value. rewrite decide_True; done. Qed.

(** C10: when the market-hours check reports the market closed, [sell]
    returns false and leaves the whole ledger as it was, whatever is held;
    [buy] never reads the clock, so its result is the same at any time of
    day. *)
Theorem sell_market_closed_guard w symbol quantity price reason s :
  is_market_open (ist_now w) = false ->
  sell w symbol quantity price reason s = (false, s)
  /\ forall t,
       buy (mk_world t (current_prices w) (timestamp_now w))
           symbol quantity price reason s
       = buy w symbol quantity price reason s.
Proof.
  intros Hclosed. split.
  - rewrite sell_eq, Hclosed. reflexivity.
  - intros t. reflexivity.
Qed.

(** A closed market, and a ledger holding 100 shares of X. *)
Definition evening : world :=
  mk_world (mk_time 20 0 0 0) (fun _ => None) 0.
Definition holding_X : portfolio :=
  mk_portfolio 1000000 990000 (2 # 10) {[ "X" := mk_position 100 100 ]} [] [].

Lemma sell_market_closed_guard_witness :
  is_market_open (ist_now evening) = false
  /\ sell evening "X" 100 90 "" holding_X = (false, holding_X)
  /\ fst (buy evening "X" 100 100 "" holding_X) = true.
Proof.
  assert (H : is_market_open (ist_now evening) = false) by reflexivity.
  split; [exact H |].
  split; [exact (proj1 (sell_market_closed_guard evening "X" 100 90 "" holding_X H)) |].
  vm_compute. reflexivity.
Defined.

(** The fresh ledger of the scenario, and a world in trading hours. *)
Definition fresh (limit : Q) : portfolio := init 1000000 limit.
Definition midday : world :=
  mk_world (mk_time 11 0 0 0) (fun _ => None) 0.

(** C6 (as amended): from cash 1,000,000 and no positions, with a
    position-size limit of at least 1%, [buy("X", 100, 100)] succeeds and
    leaves cash 990,000 and 100 shares at average cost 100; if the market is
    open when [sell("X", 100, 90)] is then called, it succeeds, logs a
    realized P/L of (90 - 100) * 100 = -1,000, leaves cash 999,000 and no
    position. *)
Theorem buy_then_sell_at_a_loss (w1 w2 : world) (limit : Q) (r1 r2 : string) :
  (1 # 100 <= limit)%Q ->
  is_market_open (ist_now w2) = true ->
  let bought := buy w1 "X" 100 100 r1 (fresh limit) in
  let sold := sell w2 "X" 100 90 r2 (snd bought) in
  fst bought = true
  /\ cash (snd bought) = 990000%Q
  /\ positions (snd bought) = {[ "X" := mk_position 100 100 ]}
  /\ fst sold = true
  /\ td_profit_loss <$> last (logged (snd sold)) = Some (-1000)%Q
  /\ cash (snd sold) = 999000%Q
  /\ positions (snd sold) = ∅.
Proof.
  intros Hlimit Hopen bought sold.
  assert (Hbought : bought =
    (true,
     recorded w1 "BUY" "X" 100 100 r1 0 0
       (set_positions {[ "X" := mk_position 100 100 ]}
                      (set_cash 990000 (fresh limit))))).
  { subst bought. rewrite buy_eq.
    assert (Hq : buy_quantity w1 100 100 (fresh limit) = Some 100).
    { unfold buy_quantity, shrink_to_cash, shrink_to_limit.
      rewrite get_total_value_no_positions by reflexivity.
      cbn [fresh init cash position_size_limit].
      replace (Qgtb (of_int 100 * 100) 1000000) with false by reflexivity.
      replace (Qis0 1000000) with false by reflexivity.
      replace (Qgtb (of_int 100 * 100 / 1000000) limit) with false; [reflexivity |].
      symmetry. apply Qgtb_false.
      assert (of_int 100 * 100 / 1000000 == 1 # 100)%Q by reflexivity. lra. }
    rewrite Hq. reflexivity. }
  assert (Hsold : sold =
    (true,
     recorded w2 "SELL" "X" 100 90 r2 (-1000) ((90 - 100) / 100 * 100)
       (set_positions ∅ (set_cash 999000 (snd bought))))).
  { subst sold. rewrite sell_eq, Hopen, Hbought.
    cbn [negb snd recorded log_trade append_transaction positions set_positions
         set_cash cash].
    rewrite lookup_singleton_eq.
    cbn [sell_quantity pos_quantity pos_price].
    replace (Qis0 100) with false by reflexivity.
    replace (100 >? 100) with false by reflexivity.
    replace (100 - 100 >? 0) with false by reflexivity.
    rewrite delete_singleton_eq. reflexivity. }
  rewrite Hsold, Hbought. repeat split; reflexivity.
Qed.

Definition bought_at_midday : bool * portfolio :=
  buy midday "X" 100 100 "" (fresh (2 # 10)).
Definition sold_at_midday : bool * portfolio :=
  sell midday "X" 100 90 "" (snd bought_at_midday).

Lemma buy_then_sell_at_a_loss_witness :
  ((1 # 100 <= 2 # 10)%Q /\ is_market_open (ist_now midday) = true)
  /\ fst bought_at_midday = true
  /\ cash (snd bought_at_midday) = 990000%Q
  /\ positions (snd bought_at_midday) = {[ "X" := mk_position 100 100 ]}
  /\ fst sold_at_midday = true
  /\ td_profit_loss <$> last (logged (snd sold_at_midday)) = Some (-1000)%Q
  /\ cash (snd sold_at_midday) = 999000%Q
  /\ positions (snd sold_at_midday) = ∅.
Proof.
  assert (H1 : (1 # 100 <= 2 # 10)%Q) by (unfold Qle; simpl; lia).
  assert (H2 : is_market_open (ist_now midday) = true) by reflexivity.
  split; [split; [exact H1 | exact H2] |].
  exact (buy_then_sell_at_a_loss midday midday (2 # 10) "" "" H1 H2).
Defined.

(** The scenario does not hold at every hour: after the same successful
    buy, a [sell] issued while the market is closed is refused, and the
    position stays. *)
Definition bought_in_the_evening : bool * portfolio :=
  buy evening "X" 100 100 "" (fresh (2 # 10)).
Definition sold_in_the_evening : bool * portfolio :=
  sell evening "X" 100 90 "" (snd bought_in_the_evening).

Lemma sell_at_a_loss_refused_after_hours :
  fst bought_in_the_evening = true
  /\ fst sold_in_the_evening = false
  /\ snd sold_in_the_evening = snd bought_in_the_evening
  /\ ~ (fst sold_in_the_evening = true
        /\ cash (snd sold_in_the_evening) = 999000%Q
        /\ positions (snd sold_in_the_evening) !! "X" = None).
Proof.
  assert (Hsold : sold_in_the_evening = (false, snd bought_in_the_evening)).
  { unfold sold_in_the_evening. rewrite sell_eq. reflexivity. }
  split; [vm_compute; reflexivity |].
  rewrite Hsold. cbn [fst snd]. split; [reflexivity|]. split; [reflexivity|].
  intros (Habs & _). discriminate Habs.
Qed.

(** *** Minimum lot *)

Lemma shrink_to_cash_cases quantity price s q :
  shrink_to_cash quantity price s = Some q -> q = quantity \/ 100 <= q.
Proof.
  unfold shrink_to_cash. intros H.
  repeat case_match; simplify_eq; auto. right. lia.
Qed.

Lemma shrink_to_limit_cases w quantity price s q :
  shrink_to_limit w quantity price s = Some q -> q = quantity \/ 100 <= q.
Proof.
  unfold shrink_to_limit. intros H.
  repeat case_match; simplify_eq; auto. right. lia.
Qed.

Lemma buy_quantity_cases w quantity price s q :
  buy_quantity w quantity price s = Some q -> q = quantity \/ 100 <= q.
Proof.
  unfold buy_quantity. intros H.
  destruct (shrink_to_cash quantity price s) as [q1|] eqn:H1; [|discriminate].
  apply shrink_to_cash_cases in H1. apply shrink_to_limit_cases in H. lia.
Qed.

(** The shares of [symbol] on the ledger; 0 when there is no position. *)
Definition held (s : portfolio) (symbol : string) : Z :=
  match positions s !! symbol with
  | Some pos => pos_quantity pos
  | None => 0
  end.


(** The [try] block of [buy], before the handler turns an exception into
    [False].  It ends in one of its two [return False] statements (the
    minimum-lot tests on a shrunk quantity), in [return True], or in an
    exception. *)
Definition buy_body (w : world) (symbol : string) (quantity : Z) (price : Q)
    (reason : string) : M portfolio bool unit :=
  (let cost := (of_int quantity * price)%Q in
   do self <- get;
   do '(quantity, cost) <-
     (if Qgtb cost (cash self) then
        do q <- fdiv (cash self) price;
        let quantity := py_int q in
        if quantity <? 100 then return_ false
        else ret (quantity, (of_int quantity * price)%Q)
      else ret (quantity, cost));
   let position_value := cost in
   let portfolio_value := get_total_value w self in
   do ratio <- fdiv position_value portfolio_value;
   do '(quantity, cost) <-
     (if Qgtb ratio (position_size_limit self) then
        do mq <- fdiv (portfolio_value * position_size_limit self)%Q price;
        let max_quantity := py_int mq in
        if max_quantity <? 100 then return_ false
        else ret (max_quantity, (of_int max_quantity * price)%Q)
      else ret (quantity, cost));
   modify (fun self => set_cash (cash self - cost)%Q self);;
   do self <- get;
   match positions self !! symbol with
   | Some current_pos =>
       let total_quantity := pos_quantity current_pos + quantity in
       let total_cost :=
         (of_int (pos_quantity current_pos) * pos_price current_pos + cost)%Q in
       do avg_price <- fdiv total_cost (of_int total_quantity);
       modify (fun self =>
         set_positions (<[symbol := mk_position total_quantity avg_price]>
                          (positions self)) self)
   | None =>
       modify (fun self =>
         set_positions (<[symbol := mk_position quantity price]>
                          (positions self)) self)
   end;;
   _record_transaction w "BUY" symbol quantity price reason 0%Q 0%Q;;
   return_ true)%py.




(** The three ways to an explicit refusal, on a ledger of 20,000 in cash
    with the ceiling at 20%: the order shrunk to the cash is below the lot
    (500 shares at 1,000: 20 fit); the order shrunk to the cash reaches the
    lot but the one shrunk to the ceiling does not (500 shares at 100: 200
    fit the cash, 40 the ceiling); the order is within the cash but the one
    shrunk to the ceiling is below the lot (150 shares at 100: 40 fit). *)
Definition small_ledger : portfolio := init 20000 (2 # 10).

Lemma buy_refusal_ways :
  buy_body midday "X" 500 1000 "" small_ledger = (Returned false, small_ledger)
  /\ buy_body midday "X" 500 100 "" small_ledger = (Returned false, small_ledger)
  /\ buy_body midday "X" 150 100 "" small_ledger = (Returned false, small_ledger).
Proof. repeat split; vm_compute; reflexivity. Qed.


(** *** Atomicity *)

(** Every explicit refusal leaves the ledger untouched. *)
Lemma buy_refused_is_clean w symbol quantity price reason s :
  buy_quantity w quantity price s = None ->
  buy w symbol quantity price reason s = (false, s).
Proof. intros H. rewrite buy_eq, H. reflexivity. Qed.

Lemma sell_refused_is_clean w symbol quantity price reason s :
  is_market_open (ist_now w) = false \/ positions s !! symbol = None ->
  sell w symbol quantity price reason s = (false, s).
Proof.
  intros H. rewrite sell_eq.
  destruct (is_market_open (ist_now w)); cbn; [|reflexivity].
  destruct H as [H|H]; [discriminate | rewrite H; reflexivity].
Qed.

(** But [sell] credits the cash before it divides by the position's entry
    price.  Shares acquired at price 0 make that division raise: the
    handler returns false, and the credit stays on the ledger. *)
Definition free_shares : portfolio :=
  snd (buy midday "X" 100 0 "" (fresh (2 # 10))).

(** C5 (the code at the failing input): [buy("X", 100, 0.0)] succeeds on a
    fresh ledger; [sell("X", 100, 50.0)] then returns false, yet cash has
    grown from 1,000,000 to 1,005,000 while the position and the
    transaction log are as before. *)
Theorem sell_failure_keeps_the_credit :
  fst (buy midday "X" 100 0 "" (fresh (2 # 10))) = true
  /\ cash free_shares = 1000000%Q
  /\ fst (sell midday "X" 100 50 "" free_shares) = false
  /\ cash (snd (sell midday "X" 100 50 "" free_shares)) = 1005000%Q
  /\ positions (snd (sell midday "X" 100 50 "" free_shares)) = positions free_shares
  /\ transactions (snd (sell midday "X" 100 50 "" free_shares))
     = transactions free_shares
  /\ snd (sell midday "X" 100 50 "" free_shares) <> free_shares.
Proof.
  assert (Hbuy : buy midday "X" 100 0 "" (fresh (2 # 10)) =
    (true,
     recorded midday "BUY" "X" 100 0 "" 0 0
       (set_positions {[ "X" := mk_position 100 0 ]}
                      (set_cash 1000000 (fresh (2 # 10)))))).
  { rewrite buy_eq. reflexivity. }
  assert (Hsell : sell midday "X" 100 50 "" free_shares =
                  (false, set_cash 1005000 free_shares)).
  { rewrite sell_eq. unfold free_shares. rewrite Hbuy. cbn.
    rewrite lookup_singleton_eq. reflexivity. }
  rewrite Hsell. unfold free_shares. rewrite Hbuy.
  repeat split; try reflexivity.
  cbn. intros Heq. discriminate Heq.
Qed.

(** *** Positive quantities *)

(** The invariant of the data model: a position that exists holds shares. *)
Definition positive_positions (s : portfolio) : Prop :=
  forall symbol pos, positions s !! symbol = Some pos -> 0 < pos_quantity pos.

(** A call on the ledger, and a run of calls, each in the world it meets. *)
Inductive order : Type :=
| Buy (symbol : string) (quantity : Z) (price : Q) (reason : string)
| Sell (symbol : string) (quantity : Z) (price : Q) (reason : string).

Definition execute (w : world) (o : order) (s : portfolio) : portfolio :=
  match o with
  | Buy symbol quantity price reason => snd (buy w symbol quantity price reason s)
  | Sell symbol quantity price reason => snd (sell w symbol quantity price reason s)
  end.

Definition run (steps : list (world * order)) (s : portfolio) : portfolio :=
  fold_left (fun s step => execute (fst step) (snd step) s) steps s.

Definition buys_positive (steps : list (world * order)) : Prop :=
  Forall (fun step =>
            match snd step with
            | Buy _ quantity _ _ => 0 < quantity
            | Sell _ _ _ _ => True
            end) steps.

Lemma positive_positions_insert s symbol pos ps :
  positive_positions s -> 0 < pos_quantity pos ->
  positions ps = <[symbol := pos]> (positions s) ->
  positive_positions ps.
Proof.
  intros Hs Hpos Hps sym p. rewrite Hps, lookup_insert.
  case_decide; intros ?; simplify_eq; eauto.
Qed.

Lemma positive_positions_delete s symbol ps :
  positive_positions s ->
  positions ps = delete symbol (positions s) ->
  positive_positions ps.
Proof.
  intros Hs Hps sym p. rewrite Hps, lookup_delete.
  case_decide; intros ?; simplify_eq; eauto.
Qed.

Lemma positive_positions_same s ps :
  positive_positions s -> positions ps = positions s -> positive_positions ps.
Proof. intros Hs Hps sym p. rewrite Hps. apply Hs. Qed.

Lemma buy_preserves_positive w symbol quantity price reason s :
  positive_positions s -> 0 < quantity ->
  positive_positions (snd (buy w symbol quantity price reason s)).
Proof.
  intros Hs Hq. rewrite buy_eq.
  destruct (buy_quantity w quantity price s) as [q|] eqn:Hbq; [|exact Hs].
  assert (0 < q) by (apply buy_quantity_cases in Hbq; lia).
  unfold buy_execute.
  destruct (positions s !! symbol) as [cur|] eqn:Hcur.
  - pose proof (Hs _ _ Hcur).
    destruct (Qis0 _); cbn [snd].
    + eapply positive_positions_same; [exact Hs | reflexivity].
    + eapply positive_positions_insert; [exact Hs | | reflexivity]. cbn. lia.
  - cbn [snd]. eapply positive_positions_insert; [exact Hs | | reflexivity].
    cbn. lia.
Qed.

Lemma sell_preserves_positive w symbol quantity price reason s :
  positive_positions s ->
  positive_positions (snd (sell w symbol quantity price reason s)).
Proof.
  intros Hs. rewrite sell_eq.
  destruct (negb _); [exact Hs|].
  destruct (positions s !! symbol) as [cur|] eqn:Hcur; [|exact Hs].
  cbn zeta. destruct (Qis0 _); cbn [snd].
  - eapply positive_positions_same; [exact Hs | reflexivity].
  - destruct (pos_quantity cur - sell_quantity quantity cur >? 0) eqn:Hrem.
    + eapply positive_positions_insert; [exact Hs | | reflexivity]. cbn. lia.
    + eapply positive_positions_delete; [exact Hs | reflexivity].
Qed.

Lemma run_preserves_positive steps s :
  positive_positions s -> buys_positive steps -> positive_positions (run steps s).
Proof.
  revert s. induction steps as [|[w o] steps IH]; intros s Hs Hsteps; [exact Hs|].
  inversion Hsteps as [|? ? Hstep Hrest]; subst.
  cbn [run fold_left fst snd]. apply IH; [|exact Hrest].
  destruct o; cbn [execute]; cbn in Hstep.
  - apply buy_preserves_positive; assumption.
  - apply sell_preserves_positive; assumption.
Qed.

(** The same invariant for [PaperTradingEngine]. *)
Definition positive_holdings (e : TradingSystem.engine) : Prop :=
  forall symbol h,
    TradingSystem.portfolio e !! symbol = Some h -> 0 < TradingSystem.quantity h.

Lemma execute_sell_preserves_positive symbol price quantity e :
  positive_holdings e ->
  positive_holdings (snd (TradingSystem.execute_sell symbol price quantity e)).
Proof.
  intros He. unfold TradingSystem.execute_sell, TradingSystem.can_sell.
  destruct (TradingSystem.portfolio e !! symbol) as [h|] eqn:Hh; [|exact He].
  destruct (TradingSystem.quantity h >=? quantity) eqn:Hge; [|exact He].
  cbn [negb TradingSystem.portfolio TradingSystem.cash_balance].
  rewrite lookup_alter_eq, Hh. cbn [fmap option_fmap option_map TradingSystem.quantity].
  pose proof (He _ _ Hh).
  destruct (TradingSystem.quantity h - quantity =? 0) eqn:Hz; cbn [snd];
    intros sym h'; cbn [TradingSystem.portfolio].
  - rewrite lookup_delete. case_decide; [discriminate|].
    rewrite lookup_alter_ne by done. apply He.
  - rewrite lookup_alter. case_decide.
    + subst sym. rewrite Hh. cbn. intros ?; simplify_eq. cbn. lia.
    + apply He.
Qed.

Lemma execute_sell_rejects_oversell symbol price quantity e h :
  TradingSystem.portfolio e !! symbol = Some h ->
  TradingSystem.quantity h < quantity ->
  TradingSystem.execute_sell symbol price quantity e = (false, e).
Proof.
  intros Hh Hq. unfold TradingSystem.execute_sell, TradingSystem.can_sell.
  rewrite Hh. replace (TradingSystem.quantity h >=? quantity) with false by lia.
  reflexivity.
Qed.

Lemma sell_clamps_to_holding w symbol quantity price reason s pos :
  is_market_open (ist_now w) = true ->
  positions s !! symbol = Some pos ->
  pos_quantity pos < quantity ->
  ~ (pos_price pos == 0)%Q ->
  fst (sell w symbol quantity price reason s) = true
  /\ positions (snd (sell w symbol quantity price reason s))
     = delete symbol (positions s)
  /\ cash (snd (sell w symbol quantity price reason s))
     = (cash s + of_int (pos_quantity pos) * price)%Q
  /\ tx_quantity <$> last (transactions (snd (sell w symbol quantity price reason s)))
     = Some (pos_quantity pos).
Proof.
  intros Hopen Hpos Hq Hprice. rewrite sell_eq, Hopen, Hpos. cbn [negb].
  apply Qis0_false in Hprice. cbv zeta. rewrite Hprice.
  unfold sell_quantity. replace (quantity >? pos_quantity pos) with true by lia.
  replace (pos_quantity pos - pos_quantity pos >? 0) with false by lia.
  cbn. rewrite last_snoc. repeat split; reflexivity.
Qed.

(** C8 (as amended): starting from a ledger whose positions all hold
    shares, after any run of [sell] calls and of [buy] calls with a positive
    quantity every position present has quantity > 0 (a position reaching 0
    is removed), so no quantity goes below 0.  With the market open,
    [Portfolio.sell] asked for more than is held of a position with a
    non-zero average cost sells exactly the holding and removes the
    position.  [PaperTradingEngine.execute_sell] keeps its positions
    positive too, and refuses a request above the holding outright. *)
Theorem no_oversell_positive_quantities :
  (forall steps s,
      positive_positions s -> buys_positive steps ->
      positive_positions (run steps s))
  /\ (forall w symbol quantity price reason s pos,
        is_market_open (ist_now w) = true ->
        positions s !! symbol = Some pos ->
        pos_quantity pos < quantity ->
        ~ (pos_price pos == 0)%Q ->
        fst (sell w symbol quantity price reason s) = true
        /\ positions (snd (sell w symbol quantity price reason s))
           = delete symbol (positions s)
        /\ cash (snd (sell w symbol quantity price reason s))
           = (cash s + of_int (pos_quantity pos) * price)%Q
        /\ tx_quantity
             <$> last (transactions (snd (sell w symbol quantity price reason s)))
           = Some (pos_quantity pos))
  /\ (forall symbol price quantity e,
        positive_holdings e ->
        positive_holdings (snd (TradingSystem.execute_sell symbol price quantity e))
        /\ forall h,
             TradingSystem.portfolio e !! symbol = Some h ->
             TradingSystem.quantity h < quantity ->
             TradingSystem.execute_sell symbol price quantity e = (false, e)).
Proof.
  split; [exact run_preserves_positive|].
  split; [exact sell_clamps_to_holding|].
  intros symbol price quantity e He. split.
  - apply execute_sell_preserves_positive, He.
  - intros h. apply execute_sell_rejects_oversell.
Qed.

(** A buy of zero shares is executed like any other and leaves a position
    of quantity 0 on the ledger. *)
Lemma buy_zero_leaves_empty_position :
  positive_positions (fresh (2 # 10))
  /\ fst (buy midday "X" 0 100 "" (fresh (2 # 10))) = true
  /\ positions (snd (buy midday "X" 0 100 "" (fresh (2 # 10)))) !! "X"
     = Some (mk_position 0 100)
  /\ ~ positive_positions (run [(midday, Buy "X" 0 100 "")] (fresh (2 # 10))).
Proof.
  assert (H : buy midday "X" 0 100 "" (fresh (2 # 10)) =
    (true,
     recorded midday "BUY" "X" 0 100 "" 0 0
       (set_positions {[ "X" := mk_position 0 100 ]}
                      (set_cash 1000000 (fresh (2 # 10)))))).
  { rewrite buy_eq. reflexivity. }
  split; [intros sym pos Hl; cbn in Hl; rewrite lookup_empty in Hl; discriminate|].
  cbn [run fold_left execute fst snd]. rewrite H. cbn.
  rewrite lookup_singleton_eq. repeat split.
  intros Hpos. assert (Habs : 0 < pos_quantity (mk_position 0 100)); [|cbn in Habs; lia].
  apply (Hpos "X"). reflexivity.
Qed.

End LedgerClaims.

(** ** The memory store *)

Section MemoryOrder.
Import LayeredMemory.
Local Open Scope Q_scope.

(** [x] may stand before [y] in a tier: it is more important, or as
    important and not older. *)
Definition precedes (x y : entry) : Prop :=
  importance_score y < importance_score x
  \/ (importance_score y == importance_score x /\ (timestamp y <= timestamp x)%Z).

Lemma key_lt_true x y :
  key_lt x y = true <->
  importance_score x < importance_score y
  \/ (importance_score x == importance_score y /\ (timestamp x < timestamp y)%Z).
Proof.
  unfold key_lt.
  rewrite orb_true_iff, andb_true_iff, Qltb_true, Qeq_bool_iff, Z.ltb_lt.
  reflexivity.
Qed.

Lemma key_lt_false x y : key_lt x y = false <-> precedes x y.
Proof.
  rewrite <- not_true_iff_false, key_lt_true. unfold precedes. split.
  - intros Hn.
    destruct (Q_dec (importance_score x) (importance_score y)) as [[H|H]|H].
    + exfalso. apply Hn. left. exact H.
    + left. exact H.
    + right. split; [lra|].
      destruct (Z_lt_le_dec (timestamp x) (timestamp y)) as [T|T]; [|exact T].
      exfalso. apply Hn. right. split; [exact H | exact T].
  - intros [H|[H T]] [H'|[H' T']]; solve [lra | lia].
Qed.

Lemma precedes_trans x y z : precedes x y -> precedes y z -> precedes x z.
Proof.
  unfold precedes. intros [H1|[H1 T1]] [H2|[H2 T2]]; try (left; lra).
  right. split; [lra | lia].
Qed.

Lemma key_lt_precedes x y : key_lt x y = true -> precedes y x.
Proof.
  rewrite key_lt_true. unfold precedes.
  intros [H|[H T]]; [left; lra | right; split; [lra | lia]].
Qed.

(** *** The stable sort *)

Lemma insert_desc_perm x l : insert_desc x l ≡ₚ x :: l.
Proof.
  induction l as [|y l IH]; [reflexivity|]. cbn.
  destruct (key_lt x y); [|reflexivity].
  rewrite IH. apply perm_swap.
Qed.

Lemma sort_desc_perm l : sort_desc l ≡ₚ l.
Proof.
  induction l as [|x l IH]; [reflexivity|].
  cbn. rewrite insert_desc_perm. f_equiv. exact IH.
Qed.

Lemma insert_desc_sorted x l :
  StronglySorted precedes l -> StronglySorted precedes (insert_desc x l).
Proof.
  induction 1 as [|y l Hl IH Hy]; cbn.
  - repeat constructor.
  - destruct (key_lt x y) eqn:Hxy.
    + constructor; [exact IH|].
      rewrite insert_desc_perm. constructor; [|exact Hy].
      apply key_lt_precedes, Hxy.
    + apply key_lt_false in Hxy.
      constructor; [constructor; assumption|].
      constructor; [exact Hxy|].
      eapply Forall_impl; [exact Hy|]. intros z Hz.
      eapply precedes_trans; eassumption.
Qed.

Lemma sort_desc_sorted l : StronglySorted precedes (sort_desc l).
Proof.
  induction l as [|x l IH]; cbn; [constructor|].
  apply insert_desc_sorted, IH.
Qed.

(** *** Trimming keeps a prefix *)

Lemma trim_is_prefix {A} (n : Z) (l : list A) : exists k, trim n l = take k l.
Proof.
  unfold trim, slice_to.
  destruct (Z.of_nat (length l) >? n)%Z.
  - destruct (0 <=? n)%Z; eauto.
  - exists (length l). symmetry. apply firstn_all.
Qed.

Lemma sorted_take {A} (R : A -> A -> Prop) k l :
  StronglySorted R l -> StronglySorted R (take k l).
Proof.
  intros Hl. rewrite <- (take_drop k l) in Hl.
  eapply StronglySorted_app_1_l, Hl.
Qed.

Lemma sorted_take_before_drop {A} (R : A -> A -> Prop) k l x y :
  StronglySorted R l -> x ∈ take k l -> y ∈ drop k l -> R x y.
Proof.
  intros Hl. rewrite <- (take_drop k l) in Hl.
  apply StronglySorted_app_1_elem_of, Hl.
Qed.

Lemma sorted_filter {A} (R : A -> A -> Prop) (f : A -> bool) l :
  StronglySorted R l -> StronglySorted R (List.filter f l).
Proof.
  induction 1 as [|x l Hl IH Hx]; cbn; [constructor|].
  destruct (f x); [|exact IH].
  constructor; [exact IH|].
  rewrite Forall_forall in *. intros y Hy.
  apply Hx. apply list_elem_of_In in Hy. apply filter_In in Hy as [Hy _].
  apply list_elem_of_In, Hy.
Qed.

(** *** Eviction *)

(** With a capacity that is not negative, trimming is the slice [l[:n]]. *)
Lemma trim_cut {A} (n : Z) (l : list A) :
  (0 <= n)%Z -> trim n l = take (Z.to_nat n) l.
Proof.
  intros Hn. unfold trim, slice_to.
  destruct (Z.of_nat (length l) >? n)%Z eqn:Hlen.
  - replace (0 <=? n)%Z with true by lia. reflexivity.
  - symmetry. apply take_ge. lia.
Qed.

(** C4 (as amended): after a record call the short-term tier is the old
    tier with the new entry, sorted by importance, most recent first among
    equals, and cut to its capacity N: the kept tier followed by what was
    dropped is that sorted list, and the kept tier holds N entries, or all
    of them when there are fewer.  So whatever a record call drops ranks no
    higher than anything it keeps: an evicted entry is less important than
    every kept one, or as important and not newer.  Eviction is
    least-important-first, oldest-first only among entries of equal
    importance. *)
Theorem short_term_evicts_least_important cfg now data memory_type s :
  exists evicted,
    short_term s ++ [_create_memory_entry now data memory_type]
      ≡ₚ short_term (add_memory cfg now data memory_type s) ++ evicted
    /\ StronglySorted precedes
         (short_term (add_memory cfg now data memory_type s) ++ evicted)
    /\ ((0 <= short_term_capacity cfg)%Z ->
        length (short_term (add_memory cfg now data memory_type s))
        = Nat.min (Z.to_nat (short_term_capacity cfg)) (length (short_term s) + 1))
    /\ forall kept gone,
         kept ∈ short_term (add_memory cfg now data memory_type s) ->
         gone ∈ evicted ->
         importance_score gone < importance_score kept
         \/ (importance_score gone == importance_score kept
             /\ (timestamp gone <= timestamp kept)%Z).
Proof.
  unfold add_memory, _maintain_memory_size. cbn [short_term].
  set (all := short_term s ++ [_create_memory_entry now data memory_type]).
  assert (Hlen : length (sort_desc all) = (length (short_term s) + 1)%nat).
  { rewrite (Permutation_length (sort_desc_perm all)).
    subst all. rewrite length_app. reflexivity. }
  assert (Hcut : (0 <= short_term_capacity cfg)%Z ->
            length (trim (short_term_capacity cfg) (sort_desc all))
            = Nat.min (Z.to_nat (short_term_capacity cfg))
                      (length (short_term s) + 1)).
  { intros Hn. rewrite (trim_cut _ _ Hn), length_take, Hlen. reflexivity. }
  destruct (trim_is_prefix (short_term_capacity cfg) (sort_desc all)) as [k Hk].
  rewrite Hk in *. exists (drop k (sort_desc all)).
  split; [rewrite take_drop; symmetry; apply sort_desc_perm|].
  split; [rewrite take_drop; apply sort_desc_sorted|].
  split; [exact Hcut|].
  intros kept gone Hkept Hgone.
  apply (sorted_take_before_drop precedes k (sort_desc all));
    [apply sort_desc_sorted | exact Hkept | exact Hgone].
Qed.

(** Two observations for a tier of capacity 1: a busy one (volume spike and
    a 10% move, score 0.5) and a quiet one (score 0). *)
Definition tiny : config := mk_config 1 10 (5 # 10).
Definition busy : market_data :=
  Some [mk_stock_data (Some 200) (Some 100) (Some (1 # 10)) None None None].
Definition quiet : market_data :=
  Some [mk_stock_data (Some 100) (Some 100) None None None None].

(** Recording the busy observation at time 1 and the quiet one at time 2
    evicts the newer entry and keeps the older. *)
Definition older : entry := _create_memory_entry 1 busy "market_data".
Definition newer : entry := _create_memory_entry 2 quiet "market_data".
Definition after_busy : memory := add_memory tiny 1 busy "market_data" init.
Definition after_quiet : memory := add_memory tiny 2 quiet "market_data" after_busy.

Lemma newest_entry_evicted_first :
  short_term after_busy = [older]
  /\ short_term after_quiet = [older]
  /\ (newer ∉ short_term after_quiet)
  /\ (timestamp older < timestamp newer)%Z.
Proof.
  split; [reflexivity|]. split; [reflexivity|]. split; [|reflexivity].
  replace (short_term after_quiet) with [older] by reflexivity.
  intros Hin. apply list_elem_of_singleton in Hin. discriminate Hin.
Qed.

(** *** Recall *)

(** The stores that a sequence of [add_memory] calls can produce. *)
Inductive reachable (cfg : config) : memory -> Prop :=
| reachable_init : reachable cfg init
| reachable_add now data memory_type s :
    reachable cfg s -> reachable cfg (add_memory cfg now data memory_type s).

Lemma sorted_trim n l : StronglySorted precedes l -> StronglySorted precedes (trim n l).
Proof.
  intros Hl. destruct (trim_is_prefix n l) as [k ->]. apply sorted_take, Hl.
Qed.

Lemma reachable_sorted cfg s :
  reachable cfg s ->
  StronglySorted precedes (short_term s) /\ StronglySorted precedes (long_term s).
Proof.
  destruct 1 as [|now data memory_type s _].
  - split; constructor.
  - unfold add_memory, _maintain_memory_size. cbn [short_term long_term].
    split; apply sorted_trim, sort_desc_sorted.
Qed.

Lemma relevant_spec cfg x :
  Qgeb (importance_score x) (relevance_threshold cfg) = true
  <-> relevance_threshold cfg <= importance_score x.
Proof. apply Qgeb_true. Qed.

(** C7 (as amended): recall returns the short-term tier filtered to the
    entries at or above the threshold, followed by the long-term tier
    filtered in the same way, and nothing else: every entry of a tier that
    reaches the threshold appears in the run of that tier exactly as often
    as in the tier, in the tier's order.  Each of the two runs is ordered
    most-important first with most-recent breaking ties.  The two runs are
    not merged: an entry held in both tiers is returned once per tier. *)
Theorem recall_contract cfg query s :
  reachable cfg s ->
  (forall x,
      x ∈ retrieve_relevant_memories cfg query s <->
      (x ∈ short_term s \/ x ∈ long_term s)
      /\ relevance_threshold cfg <= importance_score x)
  /\ exists from_short from_long,
       retrieve_relevant_memories cfg query s = from_short ++ from_long
       /\ from_short
          = List.filter
              (fun x => Qgeb (importance_score x) (relevance_threshold cfg))
              (short_term s)
       /\ from_long
          = List.filter
              (fun x => Qgeb (importance_score x) (relevance_threshold cfg))
              (long_term s)
       /\ (forall x, x ∈ from_short <->
                     x ∈ short_term s /\ relevance_threshold cfg <= importance_score x)
       /\ (forall x, x ∈ from_long <->
                     x ∈ long_term s /\ relevance_threshold cfg <= importance_score x)
       /\ StronglySorted precedes from_short
       /\ StronglySorted precedes from_long.
Proof.
  intros Hs. apply reachable_sorted in Hs as [Hshort Hlong].
  unfold retrieve_relevant_memories.
  set (relevant := fun memory : entry =>
         Qgeb (importance_score memory) (relevance_threshold cfg)).
  assert (Hfilter : forall l x,
             x ∈ List.filter relevant l <->
             x ∈ l /\ relevance_threshold cfg <= importance_score x).
  { intros l x. rewrite !list_elem_of_In, filter_In.
    unfold relevant. rewrite relevant_spec. reflexivity. }
  split.
  - intros x. rewrite elem_of_app, !Hfilter. tauto.
  - exists (List.filter relevant (short_term s)), (List.filter relevant (long_term s)).
    split; [reflexivity|]. split; [reflexivity|]. split; [reflexivity|].
    split; [apply Hfilter|]. split; [apply Hfilter|].
    split; apply sorted_filter; assumption.
Qed.

Definition roomy : config := mk_config 10 10 (5 # 10).

(** An observation with all four signals, score 1. *)
Definition hectic : market_data :=
  Some [mk_stock_data (Some 200) (Some 100) (Some (1 # 10)) (Some 80)
                      (Some 105) (Some 100)].

Definition one_busy_entry : memory := add_memory roomy 1 busy "market_data" init.

Lemma recall_contract_witness :
  reachable roomy one_busy_entry
  /\ forall x,
       x ∈ retrieve_relevant_memories roomy "" one_busy_entry <->
       (x ∈ short_term one_busy_entry \/ x ∈ long_term one_busy_entry)
       /\ relevance_threshold roomy <= importance_score x.
Proof.
  assert (H : reachable roomy one_busy_entry)
    by (apply reachable_add, reachable_init).
  split; [exact H|].
  exact (proj1 (recall_contract roomy "" one_busy_entry H)).
Defined.

(** One qualifying observation, recorded once, comes back twice. *)
Definition latest : entry := _create_memory_entry 2 hectic "market_data".
Definition two_entries : memory := add_memory roomy 2 hectic "market_data" one_busy_entry.

Lemma recall_returns_entry_twice :
  retrieve_relevant_memories roomy "" one_busy_entry = [older; older]
  /\ ~ NoDup (retrieve_relevant_memories roomy "" one_busy_entry)
  /\ retrieve_relevant_memories roomy "" two_entries = [latest; older; latest; older]
  /\ ~ StronglySorted precedes (retrieve_relevant_memories roomy "" two_entries).
Proof.
  assert (H : retrieve_relevant_memories roomy "" one_busy_entry = [older; older])
    by reflexivity.
  assert (H2 : retrieve_relevant_memories roomy "" two_entries
               = [latest; older; latest; older]) by reflexivity.
  split; [exact H|]. split.
  - rewrite H. intros Hnd.
    apply NoDup_cons in Hnd as [Hnotin _]. apply Hnotin. apply list_elem_of_here.
  - split; [exact H2|]. rewrite H2. intros Hsorted.
    apply StronglySorted_cons in Hsorted as [_ Hsorted].
    apply StronglySorted_cons in Hsorted as [Hold _].
    apply Forall_cons in Hold as [Hold _].
    apply key_lt_false in Hold. vm_compute in Hold. discriminate Hold.
Qed.

End MemoryOrder.

(** ** Importance scores *)

Section Importance.
Local Open Scope Q_scope.

(** The four bonuses [LayeredMemory._calculate_importance] grants a row. *)
Definition volume_bonus (row : LayeredMemory.stock_data) : Q :=
  match LayeredMemory.Volume_MA row with
  | Some volume_ma =>
      if Qgtb (LayeredMemory.get_or 0 (LayeredMemory.Volume row)) (volume_ma * (15 # 10))
      then 3 # 10 else 0
  | None => 0
  end.

Definition return_bonus (row : LayeredMemory.stock_data) : Q :=
  if Qgtb (Qabs (LayeredMemory.get_or 0 (LayeredMemory.Daily_Return row))) (5 # 100)
  then 2 # 10 else 0.

Definition oscillator_bonus (row : LayeredMemory.stock_data) : Q :=
  let rsi := LayeredMemory.get_or 50 (LayeredMemory.RSI row) in
  if Qltb rsi 30 || Qgtb rsi 70 then 2 # 10 else 0.

Definition average_bonus (row : LayeredMemory.stock_data) : Q :=
  match LayeredMemory.MA_20d row, LayeredMemory.MA_50d row with
  | Some ma_20, Some ma_50 =>
      if Qgtb ma_20 ma_50 || Qltb ma_20 ma_50 then 3 # 10 else 0
  | _, _ => 0
  end.

Definition row_bonus (row : LayeredMemory.stock_data) : Q :=
  volume_bonus row + return_bonus row + oscillator_bonus row + average_bonus row.

Definition total_bonus (rows : list LayeredMemory.stock_data) : Q :=
  foldr (fun row acc => row_bonus row + acc) 0 rows.

Lemma score_row_bonus importance row :
  LayeredMemory.score_row importance row == importance + row_bonus row.
Proof.
  unfold LayeredMemory.score_row, row_bonus, volume_bonus, return_bonus,
    oscillator_bonus, average_bonus.
  destruct (LayeredMemory.Volume_MA row) as [vma|];
  destruct (LayeredMemory.MA_20d row) as [m20|];
  destruct (LayeredMemory.MA_50d row) as [m50|];
  repeat match goal with
         | |- context [if ?b then _ else _] => destruct b; cbn [orb]
         end; ring.
Qed.

Lemma row_bonus_nonneg row : 0 <= row_bonus row.
Proof.
  unfold row_bonus, volume_bonus, return_bonus, oscillator_bonus, average_bonus.
  destruct (LayeredMemory.Volume_MA row) as [vma|];
  destruct (LayeredMemory.MA_20d row) as [m20|];
  destruct (LayeredMemory.MA_50d row) as [m50|];
  repeat match goal with
         | |- context [if ?b then _ else _] => destruct b
         end; lra.
Qed.

Lemma total_bonus_nonneg rows : 0 <= total_bonus rows.
Proof.
  induction rows as [|row rows IH]; [cbn; lra|].
  change (0 <= row_bonus row + total_bonus rows).
  pose proof (row_bonus_nonneg row). lra.
Qed.

Lemma fold_score_row rows importance :
  fold_left LayeredMemory.score_row rows importance == importance + total_bonus rows.
Proof.
  revert importance. induction rows as [|row rows IH]; intros importance.
  - cbn. ring.
  - change (fold_left LayeredMemory.score_row rows
              (LayeredMemory.score_row importance row)
            == importance + (row_bonus row + total_bonus rows)).
    rewrite IH, score_row_bonus. ring.
Qed.

Lemma py_min_proper a a' b : a == a' -> py_min a b == py_min a' b.
Proof.
  intros Ha. unfold py_min.
  destruct (Qltb b a) eqn:E, (Qltb b a') eqn:E';
    rewrite ?Qltb_true, ?Qltb_false in *; lra.
Qed.

Lemma calculate_importance_bonus rows :
  LayeredMemory._calculate_importance (Some rows) == py_min (total_bonus rows) 1.
Proof.
  unfold LayeredMemory._calculate_importance. apply py_min_proper.
  rewrite fold_score_row. ring.
Qed.

Lemma calculate_importance_range data :
  0 <= LayeredMemory._calculate_importance data <= 1.
Proof.
  split; [|apply py_min_le_r].
  destruct data as [rows|].
  - rewrite calculate_importance_bonus.
    apply py_min_glb; [apply total_bonus_nonneg | lra].
  - unfold LayeredMemory._calculate_importance. apply py_min_glb; lra.
Qed.

(** The bonus [LayeredMemorySystem.calculate_importance_score] adds to its
    base score for each kind of entry. *)
Definition kind_bonus (data_type : string) (content : TradingSystem.content) : Q :=
  if String.eqb data_type "PRICE" then
    py_min (Qabs (TradingSystem.get_or 0 (TradingSystem.price_change_1d content)) / 10)
           (4 # 10)
  else if String.eqb data_type "NEWS" then
    py_min (Qabs (TradingSystem.get_or 0 (TradingSystem.sentiment content))) (4 # 10)
  else if String.eqb data_type "TECHNICAL" then
    let rsi := TradingSystem.get_or 50 (TradingSystem.c_rsi content) in
    if Qgtb rsi 70 || Qltb rsi 30 then 3 # 10 else 0
  else if String.eqb data_type "TRADE" then 3 # 10
  else 0.

Lemma kind_bonus_range data_type content :
  0 <= kind_bonus data_type content <= 4 # 10.
Proof.
  unfold kind_bonus.
  repeat match goal with
         | |- context [if ?b then _ else _] => destruct b
         end;
    try (split; lra);
    (split; [apply py_min_glb; [|lra] | apply py_min_le_r]).
  - unfold Qdiv. apply Qmult_le_0_compat; [apply Qabs_nonneg|].
    unfold Qle; simpl; lia.
  - apply Qabs_nonneg.
Qed.

Lemma calculate_importance_score_bonus data_type content :
  TradingSystem.calculate_importance_score data_type content
  == (5 # 10) + kind_bonus data_type content.
Proof.
  pose proof (kind_bonus_range data_type content) as Hrange.
  unfold TradingSystem.calculate_importance_score, kind_bonus in *.
  set (p := py_min (Qabs (TradingSystem.get_or 0 (TradingSystem.price_change_1d content)) / 10) (4 # 10)) in *.
  set (n := py_min (Qabs (TradingSystem.get_or 0 (TradingSystem.sentiment content))) (4 # 10)) in *.
  unfold py_min at 1.
  repeat match goal with
         | |- context [if ?b then _ else _] =>
             let E := fresh "E" in destruct b eqn:E
         end;
    rewrite ?Qltb_true, ?Qltb_false in *; lra.
Qed.

(** C3 (as amended): the two scoring functions of the repository.
    [LayeredMemorySystem.calculate_importance_score] starts from the base
    0.5 and adds one bonus chosen by the kind of entry: min(|1-day change|/10,
    0.4) for PRICE, min(|sentiment|, 0.4) for NEWS, 0.3 for TECHNICAL when
    the oscillator is below 30 or above 70; a TRADE entry always scores 0.8;
    the result lies in [0.5, 1].  [LayeredMemory._calculate_importance]
    starts from 0 and adds, for every row, 0.3 for volume above 1.5 times
    its rolling average, 0.2 for a return beyond 5%, 0.2 for an oscillator
    below 30 or above 70 and 0.3 when the 20- and 50-day averages differ;
    the sum is capped at 1 and lies in [0, 1]. *)
Theorem importance_scoring_policy :
  (forall data_type content,
      TradingSystem.calculate_importance_score data_type content
      == (5 # 10) + kind_bonus data_type content
      /\ 5 # 10 <= TradingSystem.calculate_importance_score data_type content <= 1)
  /\ (forall content,
        TradingSystem.calculate_importance_score "TRADE" content = 8 # 10)
  /\ (forall rows,
        LayeredMemory._calculate_importance (Some rows)
        == py_min (total_bonus rows) 1)
  /\ LayeredMemory._calculate_importance None == 0
  /\ (forall data, 0 <= LayeredMemory._calculate_importance data <= 1).
Proof.
  split.
  { intros data_type content.
    pose proof (calculate_importance_score_bonus data_type content) as Heq.
    pose proof (kind_bonus_range data_type content).
    split; [exact Heq|]. split; [lra|].
    unfold TradingSystem.calculate_importance_score. apply py_min_le_r. }
  split; [reflexivity|].
  split; [exact calculate_importance_bonus|].
  split; [reflexivity|].
  exact calculate_importance_range.
Qed.

(** A quiet observation scores 0 in the memory store, below the base of
    0.5; and a 1% move earns a PRICE entry a bonus of 0.1 only. *)
Lemma quiet_entry_scores_zero :
  LayeredMemory._calculate_importance quiet == 0
  /\ ~ (5 # 10 <= LayeredMemory._calculate_importance quiet)
  /\ TradingSystem.calculate_importance_score "PRICE"
       (TradingSystem.mk_content (Some 1) None None) == 6 # 10.
Proof.
  split; [reflexivity|]. split; [|reflexivity].
  intros H. vm_compute in H. apply H. reflexivity.
Qed.

End Importance.

(** ** The indicator engine *)

Section Indicators.
Import TradingSystem.

Variable sma_indicator ema_indicator rsi : list Q -> nat -> npfloat.
Variable macd macd_signal : list Q -> npfloat.
Variable bollinger_hband bollinger_lband bollinger_mavg : list Q -> npfloat.

Abbreviation indicators_of :=
  (calculate_indicators sma_indicator ema_indicator rsi macd macd_signal
     bollinger_hband bollinger_lband bollinger_mavg).

(** With enough bars the engine does return a vector: eighteen named
    values, none of them NaN. *)
Lemma enough_data_gives_vector data :
  (50 <= length data)%nat ->
  length (indicators_of data) = 18%nat
  /\ Forall (fun kv => isna (snd kv) = false) (indicators_of data).
Proof.
  intros Hlen. unfold calculate_indicators.
  replace (bool_decide (data = [])) with false
    by (symmetry; apply bool_decide_eq_false; intros ->; cbn in Hlen; lia).
  replace (Z.of_nat (length data) <? 50) with false by lia.
  cbn [orb]. split; [reflexivity|].
  apply Forall_map, Forall_forall. intros [k v] _. cbn.
  destruct (isna v) eqn:E; [reflexivity | exact E].
Qed.

End Indicators.

(** C9: for every window shorter than the minimum lookback of 50 bars,
    whatever the indicator library would compute, the engine returns the
    empty indicator set, the "insufficient data" result, and no feature
    vector at all. *)
Theorem insufficient_data_contract
    (sma_indicator ema_indicator rsi : list Q -> nat -> TradingSystem.npfloat)
    (macd macd_signal bollinger_hband bollinger_lband bollinger_mavg :
       list Q -> TradingSystem.npfloat)
    (data : list TradingSystem.bar) :
  (length data < 50)%nat ->
  TradingSystem.calculate_indicators sma_indicator ema_indicator rsi macd
    macd_signal bollinger_hband bollinger_lband bollinger_mavg data = [].
Proof.
  intros Hlen. unfold TradingSystem.calculate_indicators.
  replace (Z.of_nat (length data) <? 50) with true by lia.
  rewrite orb_true_r. reflexivity.
Qed.

(** Forty-nine identical bars, and an indicator library that would answer
    1 to everything. *)
Definition short_window : list TradingSystem.bar :=
  replicate 49 (TradingSystem.mk_bar 100 101 99 100 5000).
Definition flat (_ : list Q) : TradingSystem.npfloat := TradingSystem.Fin 1.

Lemma insufficient_data_contract_witness :
  (length short_window < 50)%nat
  /\ TradingSystem.calculate_indicators (fun c _ => flat c) (fun c _ => flat c)
       (fun c _ => flat c) flat flat flat flat flat short_window = [].
Proof.
  assert (H : (length short_window < 50)%nat) by (vm_compute; lia).
  split; [exact H|].
  exact (insufficient_data_contract _ _ _ _ _ _ _ _ short_window H).
Defined.

(* ===================================================================== *)
(** * Further properties of the ledger *)
(* ===================================================================== *)

(** ** Integers among the floats *)

Section Integers.
Local Open Scope Q_scope.

Lemma of_int_le a b : (a <= b)%Z -> of_int a <= of_int b.
Proof. intros H. unfold of_int. rewrite <- Zle_Qle. exact H. Qed.

Lemma of_int_plus a b : of_int (a + b) == of_int a + of_int b.
Proof. unfold of_int. rewrite inject_Z_plus. reflexivity. Qed.

End Integers.

(** ** What a successful trade leaves behind *)

Section LedgerBooks.
Import Portfolio RealTimeDataManager.

(** The position [buy] writes for [symbol] when it executes [q] shares. *)
Definition merged (s : portfolio) (symbol : string) (q : Z) (price : Q) : position :=
  match positions s !! symbol with
  | Some cur =>
      mk_position (pos_quantity cur + q)
        ((of_int (pos_quantity cur) * pos_price cur + of_int q * price)
         / of_int (pos_quantity cur + q))
  | None => mk_position q price
  end.

Lemma buy_success_shape w symbol quantity price reason s :
  fst (buy w symbol quantity price reason s) = true ->
  exists q,
    buy_quantity w quantity price s = Some q
    /\ (forall cur, positions s !! symbol = Some cur ->
                    Qis0 (of_int (pos_quantity cur + q)) = false)
    /\ snd (buy w symbol quantity price reason s)
       = recorded w "BUY" symbol q price reason 0 0
           (set_positions (<[symbol := merged s symbol q price]> (positions s))
              (set_cash (cash s - of_int q * price) s)).
Proof.
  rewrite buy_eq.
  destruct (buy_quantity w quantity price s) as [q|] eqn:Hq; [|discriminate].
  unfold buy_execute, merged.
  destruct (positions s !! symbol) as [cur|] eqn:Hcur.
  - destruct (Qis0 (of_int (pos_quantity cur + q))) eqn:Hz; [discriminate|].
    intros _. exists q. split; [reflexivity|].
    split; [intros ? [= <-]; exact Hz | reflexivity].
  - intros _. exists q. split; [reflexivity|]. split; [discriminate | reflexivity].
Qed.

Lemma sell_success_shape w symbol quantity price reason s :
  fst (sell w symbol quantity price reason s) = true ->
  is_market_open (ist_now w) = true
  /\ exists held,
       positions s !! symbol = Some held
       /\ Qis0 (pos_price held) = false
       /\ snd (sell w symbol quantity price reason s)
          = recorded w "SELL" symbol (sell_quantity quantity held) price reason
              ((price - pos_price held) * of_int (sell_quantity quantity held))
              ((price - pos_price held) / pos_price held * 100)
              (set_positions
                 (if pos_quantity held - sell_quantity quantity held >? 0
                  then <[symbol := mk_position
                                     (pos_quantity held - sell_quantity quantity held)
                                     (pos_price held)]> (positions s)
                  else delete symbol (positions s))
                 (set_cash (cash s + of_int (sell_quantity quantity held) * price) s)).
Proof.
  rewrite sell_eq.
  destruct (is_market_open (ist_now w)); [|discriminate]. cbn [negb].
  destruct (positions s !! symbol) as [held|] eqn:Hheld; [|discriminate].
  cbv zeta. destruct (Qis0 (pos_price held)) eqn:Hz; [discriminate|].
  intros _. split; [reflexivity|]. exists held.
  split; [reflexivity|]. split; [exact Hz | reflexivity].
Qed.

(** X3: a successful [buy] is booked exactly once: one transaction and one
    log row are appended, both for the executed quantity at the order's
    price; cash falls by exactly the value of that transaction, the row
    reports the cash left, and no profit or loss is logged. *)
Theorem successful_buy_is_booked_once w symbol quantity price reason s :
  fst (buy w symbol quantity price reason s) = true ->
  exists tx row,
    transactions (snd (buy w symbol quantity price reason s)) = transactions s ++ [tx]
    /\ logged (snd (buy w symbol quantity price reason s)) = logged s ++ [row]
    /\ tx_action tx = "BUY" /\ tx_symbol tx = symbol /\ tx_price tx = price
    /\ tx_value tx = (of_int (tx_quantity tx) * price)%Q
    /\ cash (snd (buy w symbol quantity price reason s)) = (cash s - tx_value tx)%Q
    /\ td_quantity row = tx_quantity tx
    /\ td_cash_after_trade row = cash (snd (buy w symbol quantity price reason s))
    /\ td_profit_loss row = 0%Q.
Proof.
  intros Hok. destruct (buy_success_shape _ _ _ _ _ _ Hok) as (q & _ & _ & ->).
  eexists _, _. cbn. repeat split; reflexivity.
Qed.

Lemma successful_buy_is_booked_once_witness :
  fst (buy midday "X" 100 100 "" (fresh (2 # 10))) = true
  /\ exists tx row,
       transactions (snd (buy midday "X" 100 100 "" (fresh (2 # 10))))
       = transactions (fresh (2 # 10)) ++ [tx]
       /\ logged (snd (buy midday "X" 100 100 "" (fresh (2 # 10))))
          = logged (fresh (2 # 10)) ++ [row]
       /\ tx_action tx = "BUY" /\ tx_symbol tx = "X" /\ tx_price tx = 100%Q
       /\ tx_value tx = (of_int (tx_quantity tx) * 100)%Q
       /\ cash (snd (buy midday "X" 100 100 "" (fresh (2 # 10))))
          = (cash (fresh (2 # 10)) - tx_value tx)%Q
       /\ td_quantity row = tx_quantity tx
       /\ td_cash_after_trade row
          = cash (snd (buy midday "X" 100 100 "" (fresh (2 # 10))))
       /\ td_profit_loss row = 0%Q.
Proof.
  assert (H : fst (buy midday "X" 100 100 "" (fresh (2 # 10))) = true)
    by (rewrite buy_eq; reflexivity).
  split; [exact H|].
  exact (successful_buy_is_booked_once midday "X" 100 100 "" (fresh (2 # 10)) H).
Defined.

(** X4: a successful [sell] is booked exactly once: one transaction and one
    log row are appended for the quantity sold, which is never more than
    was held; cash rises by exactly the value of the transaction, and the
    row logs the profit or loss (price - average cost) * quantity sold
    against the average cost the position had. *)
Theorem successful_sell_is_booked_once w symbol quantity price reason s :
  fst (sell w symbol quantity price reason s) = true ->
  exists held tx row,
    positions s !! symbol = Some held
    /\ transactions (snd (sell w symbol quantity price reason s))
       = transactions s ++ [tx]
    /\ logged (snd (sell w symbol quantity price reason s)) = logged s ++ [row]
    /\ tx_action tx = "SELL" /\ tx_symbol tx = symbol /\ tx_price tx = price
    /\ tx_quantity tx <= pos_quantity held
    /\ tx_quantity tx <= quantity
    /\ tx_value tx = (of_int (tx_quantity tx) * price)%Q
    /\ cash (snd (sell w symbol quantity price reason s)) = (cash s + tx_value tx)%Q
    /\ td_cash_after_trade row = cash (snd (sell w symbol quantity price reason s))
    /\ td_profit_loss row
       = ((price - pos_price held) * of_int (tx_quantity tx))%Q.
Proof.
  intros Hok.
  destruct (sell_success_shape _ _ _ _ _ _ Hok) as (_ & held & Hheld & _ & ->).
  exists held. eexists _, _. cbn.
  assert (Hq : sell_quantity quantity held <= pos_quantity held
               /\ sell_quantity quantity held <= quantity).
  { unfold sell_quantity.
    destruct (quantity >? pos_quantity held) eqn:E; lia. }
  repeat split; try reflexivity; try exact Hheld; apply Hq.
Qed.

Lemma successful_sell_is_booked_once_witness :
  fst (sell midday "X" 100 90 "" holding_X) = true
  /\ exists held tx row,
       positions holding_X !! "X" = Some held
       /\ transactions (snd (sell midday "X" 100 90 "" holding_X))
          = transactions holding_X ++ [tx]
       /\ logged (snd (sell midday "X" 100 90 "" holding_X))
          = logged holding_X ++ [row]
       /\ tx_action tx = "SELL" /\ tx_symbol tx = "X" /\ tx_price tx = 90%Q
       /\ tx_quantity tx <= pos_quantity held
       /\ tx_quantity tx <= 100
       /\ tx_value tx = (of_int (tx_quantity tx) * 90)%Q
       /\ cash (snd (sell midday "X" 100 90 "" holding_X))
          = (cash holding_X + tx_value tx)%Q
       /\ td_cash_after_trade row = cash (snd (sell midday "X" 100 90 "" holding_X))
       /\ td_profit_loss row = ((90 - pos_price held) * of_int (tx_quantity tx))%Q.
Proof.
  assert (H : fst (sell midday "X" 100 90 "" holding_X) = true)
    by (rewrite sell_eq; reflexivity).
  split; [exact H|].
  exact (successful_sell_is_booked_once midday "X" 100 90 "" holding_X H).
Defined.

(** X5: a successful [buy] into an existing position merges at the
    weighted average cost: the quantity grows by the shares executed to a
    total that is not zero, and the new average cost is (old quantity * old
    average cost + executed quantity * price) / new quantity.  A successful
    [buy] of a symbol not yet held opens the position at the order's
    price. *)
Theorem buy_merges_at_average_cost w symbol quantity price reason s :
  fst (buy w symbol quantity price reason s) = true ->
  exists q new,
    tx_quantity <$> last (transactions (snd (buy w symbol quantity price reason s)))
    = Some q
    /\ positions (snd (buy w symbol quantity price reason s)) !! symbol = Some new
    /\ match positions s !! symbol with
       | Some old =>
           pos_quantity new = pos_quantity old + q
           /\ pos_quantity new <> 0
           /\ pos_price new
              = ((of_int (pos_quantity old) * pos_price old + of_int q * price)
                 / of_int (pos_quantity new))%Q
       | None => new = mk_position q price
       end.
Proof.
  intros Hok. destruct (buy_success_shape _ _ _ _ _ _ Hok) as (q & _ & Hnz & ->).
  exists q, (merged s symbol q price). cbn. rewrite last_snoc, lookup_insert_eq.
  split; [reflexivity|]. split; [reflexivity|].
  unfold merged. destruct (positions s !! symbol) as [old|]; [|reflexivity].
  cbn. split; [reflexivity|]. split; [|reflexivity].
  specialize (Hnz old eq_refl). apply Qis0_false in Hnz.
  intros Hzero. apply Hnz. rewrite Hzero. reflexivity.
Qed.

Lemma buy_merges_at_average_cost_witness :
  fst (buy midday "X" 100 50 "" holding_X) = true
  /\ exists q new,
       tx_quantity <$> last (transactions (snd (buy midday "X" 100 50 "" holding_X)))
       = Some q
       /\ positions (snd (buy midday "X" 100 50 "" holding_X)) !! "X" = Some new
       /\ match positions holding_X !! "X" with
          | Some old =>
              pos_quantity new = pos_quantity old + q
              /\ pos_quantity new <> 0
              /\ pos_price new
                 = ((of_int (pos_quantity old) * pos_price old + of_int q * 50)
                    / of_int (pos_quantity new))%Q
          | None => new = mk_position q 50
          end.
Proof.
  assert (H : fst (buy midday "X" 100 50 "" holding_X) = true).
  { rewrite buy_eq. vm_compute. reflexivity. }
  split; [exact H|].
  exact (buy_merges_at_average_cost midday "X" 100 50 "" holding_X H).
Defined.

(** X6: with the market open, [sell] of fewer shares than are held of a
    position with a non-zero average cost succeeds and is partial: the
    position stays with the remaining quantity and its average cost
    unchanged, cash rises by quantity * price, and the logged profit or
    loss is (price - average cost) * quantity.  The quantity is not checked
    for sign: a request of zero or fewer shares goes the same way. *)
Theorem partial_sell_keeps_average_cost w symbol quantity price reason s held :
  is_market_open (ist_now w) = true ->
  positions s !! symbol = Some held ->
  quantity < pos_quantity held ->
  ~ (pos_price held == 0)%Q ->
  fst (sell w symbol quantity price reason s) = true
  /\ positions (snd (sell w symbol quantity price reason s))
     = <[symbol := mk_position (pos_quantity held - quantity) (pos_price held)]>
         (positions s)
  /\ cash (snd (sell w symbol quantity price reason s))
     = (cash s + of_int quantity * price)%Q
  /\ td_profit_loss <$> last (logged (snd (sell w symbol quantity price reason s)))
     = Some ((price - pos_price held) * of_int quantity)%Q.
Proof.
  intros Hopen Hheld Hq Hprice. rewrite sell_eq, Hopen, Hheld. cbn [negb].
  apply Qis0_false in Hprice. cbv zeta. rewrite Hprice.
  unfold sell_quantity. replace (quantity >? pos_quantity held) with false by lia.
  replace (pos_quantity held - quantity >? 0) with true by lia.
  cbn. rewrite last_snoc. repeat split; reflexivity.
Qed.

Definition holding_200 : portfolio :=
  mk_portfolio 1000000 990000 (2 # 10) {[ "X" := mk_position 200 50 ]} [] [].

Lemma partial_sell_keeps_average_cost_witness :
  (is_market_open (ist_now midday) = true
   /\ positions holding_200 !! "X" = Some (mk_position 200 50)
   /\ 50 < pos_quantity (mk_position 200 50)
   /\ ~ (pos_price (mk_position 200 50) == 0)%Q)
  /\ fst (sell midday "X" 50 60 "" holding_200) = true
  /\ positions (snd (sell midday "X" 50 60 "" holding_200))
     = <[ "X" := mk_position (200 - 50) 50 ]> (positions holding_200)
  /\ cash (snd (sell midday "X" 50 60 "" holding_200))
     = (cash holding_200 + of_int 50 * 60)%Q
  /\ td_profit_loss <$> last (logged (snd (sell midday "X" 50 60 "" holding_200)))
     = Some ((60 - 50) * of_int 50)%Q.
Proof.
  assert (H1 : is_market_open (ist_now midday) = true) by reflexivity.
  assert (H2 : positions holding_200 !! "X" = Some (mk_position 200 50))
    by (cbn; apply lookup_singleton_eq).
  assert (H3 : 50 < pos_quantity (mk_position 200 50)) by (cbn; lia).
  assert (H4 : ~ (pos_price (mk_position 200 50) == 0)%Q) by (cbn; discriminate).
  split; [repeat split; assumption|].
  exact (partial_sell_keeps_average_cost midday "X" 50 60 "" holding_200
           (mk_position 200 50) H1 H2 H3 H4).
Defined.

Lemma positions_recorded w action symbol q price reason pl plp s :
  positions (recorded w action symbol q price reason pl plp s) = positions s.
Proof. reflexivity. Qed.

(** X7: [buy] and [sell] touch one symbol only: the position of every
    other symbol, the initial capital and the position-size limit are the
    same after the call as before, whatever the call returns. *)
Theorem trades_leave_other_symbols_alone w symbol quantity price reason s other :
  other <> symbol ->
  positions (snd (buy w symbol quantity price reason s)) !! other
  = positions s !! other
  /\ positions (snd (sell w symbol quantity price reason s)) !! other
     = positions s !! other
  /\ initial_capital (snd (buy w symbol quantity price reason s)) = initial_capital s
  /\ initial_capital (snd (sell w symbol quantity price reason s)) = initial_capital s
  /\ position_size_limit (snd (buy w symbol quantity price reason s))
     = position_size_limit s
  /\ position_size_limit (snd (sell w symbol quantity price reason s))
     = position_size_limit s.
Proof.
  intros Hother. rewrite buy_eq, sell_eq.
  assert (Hbuy : forall q,
    positions (snd (buy_execute w symbol q price reason s)) !! other
    = positions s !! other
    /\ initial_capital (snd (buy_execute w symbol q price reason s))
       = initial_capital s
    /\ position_size_limit (snd (buy_execute w symbol q price reason s))
       = position_size_limit s).
  { intros q. unfold buy_execute.
    destruct (positions s !! symbol); [destruct (Qis0 _)|]; cbn;
      rewrite ?lookup_insert_ne by done; repeat split; reflexivity. }
  destruct (buy_quantity w quantity price s) as [q|];
    [destruct (Hbuy q) as (-> & -> & ->) | cbn [snd]];
  (destruct (negb (is_market_open (ist_now w)));
   [repeat split; reflexivity|];
   destruct (positions s !! symbol) as [held|]; [|repeat split; reflexivity];
   cbv zeta; destruct (Qis0 (pos_price held)); [repeat split; reflexivity|];
   destruct (pos_quantity held - sell_quantity quantity held >? 0); cbn;
   rewrite ?lookup_insert_ne, ?lookup_delete_ne by done; repeat split; reflexivity).
Qed.

Lemma trades_leave_other_symbols_alone_witness :
  "Y" <> "X"
  /\ positions (snd (buy midday "X" 100 50 "" holding_X)) !! "Y"
     = positions holding_X !! "Y"
  /\ positions (snd (sell midday "X" 100 90 "" holding_X)) !! "Y"
     = positions holding_X !! "Y".
Proof.
  assert (H : "Y" <> "X") by discriminate.
  split; [exact H|].
  destruct (trades_leave_other_symbols_alone midday "X" 100 50 "" holding_X "Y" H)
    as (Hb & _).
  destruct (trades_leave_other_symbols_alone midday "X" 100 90 "" holding_X "Y" H)
    as (_ & Hs & _).
  split; [exact Hb | exact Hs].
Defined.

(** *** History *)

Lemma buy_history w symbol quantity price reason s :
  exists txs rows,
    transactions (snd (buy w symbol quantity price reason s)) = transactions s ++ txs
    /\ logged (snd (buy w symbol quantity price reason s)) = logged s ++ rows
    /\ length txs = length rows /\ (length txs <= 1)%nat.
Proof.
  rewrite buy_eq.
  destruct (buy_quantity w quantity price s) as [q|].
  - unfold buy_execute.
    destruct (positions s !! symbol); [destruct (Qis0 _)|].
    + exists [], []. cbn. rewrite !app_nil_r. repeat split; lia.
    + eexists [_], [_]. cbn. repeat split; (reflexivity || lia).
    + eexists [_], [_]. cbn. repeat split; (reflexivity || lia).
  - exists [], []. cbn. rewrite !app_nil_r. repeat split; lia.
Qed.

Lemma sell_history w symbol quantity price reason s :
  exists txs rows,
    transactions (snd (sell w symbol quantity price reason s)) = transactions s ++ txs
    /\ logged (snd (sell w symbol quantity price reason s)) = logged s ++ rows
    /\ length txs = length rows /\ (length txs <= 1)%nat.
Proof.
  rewrite sell_eq.
  destruct (negb _); [exists [], []; cbn; rewrite !app_nil_r; repeat split; lia|].
  destruct (positions s !! symbol) as [held|];
    [|exists [], []; cbn; rewrite !app_nil_r; repeat split; lia].
  cbv zeta. destruct (Qis0 _).
  - exists [], []. cbn. rewrite !app_nil_r. repeat split; lia.
  - eexists [_], [_]. cbn. repeat split; (reflexivity || lia).
Qed.

(** X8: the history is append-only.  Over any run of [buy] and [sell]
    calls the transaction list and the trade log only grow at the end: what
    was recorded before the run is still there, in order, as a prefix; the
    two grow by the same number of records, at most one per call. *)
Theorem history_is_append_only steps s :
  exists txs rows,
    transactions (run steps s) = transactions s ++ txs
    /\ logged (run steps s) = logged s ++ rows
    /\ length txs = length rows
    /\ (length txs <= length steps)%nat.
Proof.
  revert s. induction steps as [|[w o] steps IH]; intros s.
  - exists [], []. cbn. rewrite !app_nil_r. repeat split; lia.
  - cbn [run fold_left fst snd].
    destruct (IH (execute w o s)) as (txs2 & rows2 & Ht2 & Hl2 & Hlen2 & Hle2).
    assert (Hstep : exists txs rows,
      transactions (execute w o s) = transactions s ++ txs
      /\ logged (execute w o s) = logged s ++ rows
      /\ length txs = length rows /\ (length txs <= 1)%nat).
    { destruct o; cbn [execute]; [apply buy_history | apply sell_history]. }
    destruct Hstep as (txs1 & rows1 & Ht1 & Hl1 & Hlen1 & Hle1).
    exists (txs1 ++ txs2), (rows1 ++ rows2).
    change (fold_left (fun s step => execute (fst step) (snd step) s) steps
              (execute w o s)) with (run steps (execute w o s)).
    rewrite Ht2, Hl2, Ht1, Hl1, <- !app_assoc, !length_app. cbn [length].
    repeat split; lia.
Qed.

End LedgerBooks.

(* ===================================================================== *)
(** * Further properties of the risk filter *)
(* ===================================================================== *)

Section RiskFilterLoop.
Import GeminiTrader.
Local Open Scope Q_scope.

Definition cost (d : decision) : Q := of_int (quantity d) * price d.

(** What one pass of the loop body does to the two locals. *)
Definition filter_one (limit : Q) (symbol : string) (d : decision)
    (s : loop_state) : exn + loop_state :=
  if String.eqb (action d) "buy" then
    if Qgtb (cost d) (available_cash s) then inr s
    else if Qgtb (cost d) limit then
      if Qis0 (price d) then inl ZeroDivisionError
      else
        let max_quantity := py_int (limit / price d) in
        if (max_quantity <? 100)%Z then inr s
        else
          let d' := set_quantity (Z.min max_quantity 1000) d in
          inr (keep symbol d' (spend (cost d') s))
    else inr (keep symbol d (spend (cost d) s))
  else inr (keep symbol d s).

Lemma for_each_cons limit symbol d rest s :
  for_each limit ((symbol, d) :: rest) s =
  match filter_one limit symbol d s with
  | inl e => inl e
  | inr s' => for_each limit rest s'
  end.
Proof.
  cbn [for_each].
  cbv [filter_one iteration bind get ret return_ raise modify fdiv cost].
  repeat (case_match; simplify_eq; try reflexivity; try congruence).
Qed.

(** How an intent that survives relates to the one proposed: unchanged, or
    a BUY whose quantity was replaced by one between 100 and 1000 shares. *)
Definition adjusted (d d' : decision) : Prop :=
  d' = d
  \/ (action d = "buy"
      /\ exists q, d' = set_quantity q d /\ (100 <= q <= 1000)%Z).

Lemma dict_set_fresh {V} (k : string) (v : V) (d : dict V) :
  k ∉ map fst d -> dict_set k v d = d ++ [(k, v)].
Proof.
  induction d as [|[k' v'] d IH]; intros Hk; [reflexivity|].
  cbn in Hk. apply not_elem_of_cons in Hk as [Hne Hk].
  cbn. destruct (String.eqb_spec k k'); [contradiction|].
  rewrite IH by exact Hk. reflexivity.
Qed.

(** One pass that does not raise keeps the intent, as it is or resized, or
    skips it; it never skips an intent that is not a BUY. *)
Lemma filter_one_shape limit k d s s' :
  filter_one limit k d s = inr s' ->
  k ∉ map fst (filtered_decisions s) ->
  exists kept,
    filtered_decisions s' = filtered_decisions s ++ kept
    /\ (kept = [] \/ exists d', kept = [(k, d')] /\ adjusted d d')
    /\ (String.eqb (action d) "buy" = false -> kept = [(k, d)]).
Proof.
  unfold filter_one. intros Hrun Hfresh.
  destruct (String.eqb (action d) "buy") eqn:Hbuy.
  - destruct (Qgtb (cost d) (available_cash s)).
    { injection Hrun as <-. exists []. rewrite app_nil_r.
      split; [reflexivity|]. split; [left; reflexivity | discriminate]. }
    destruct (Qgtb (cost d) limit).
    + destruct (Qis0 (price d)); [discriminate|]. cbv zeta in Hrun.
      destruct (py_int (limit / price d) <? 100)%Z eqn:Hlot.
      { injection Hrun as <-. exists []. rewrite app_nil_r.
        split; [reflexivity|]. split; [left; reflexivity | discriminate]. }
      apply Z.ltb_ge in Hlot. injection Hrun as <-.
      eexists [(k, _)]. split; [cbn; apply dict_set_fresh, Hfresh|].
      split; [|discriminate]. right. eexists. split; [reflexivity|].
      right. split; [apply String.eqb_eq, Hbuy|].
      exists (Z.min (py_int (limit / price d)) 1000).
      split; [reflexivity | lia].
    + injection Hrun as <-.
      exists [(k, d)]. split; [cbn; apply dict_set_fresh, Hfresh|].
      split; [|discriminate]. right. exists d.
      split; [reflexivity | left; reflexivity].
  - injection Hrun as <-.
    exists [(k, d)]. split; [cbn; apply dict_set_fresh, Hfresh|].
    split; [|reflexivity]. right. exists d.
    split; [reflexivity | left; reflexivity].
Qed.


(** What the filter guarantees of an intent [kd'] it returns, given the
    intents [items] it was handed. *)
Definition entry_ok (items : dict decision) (kd' : string * decision) : Prop :=
  exists d, (fst kd', d) ∈ items /\ adjusted d (snd kd').

Lemma entry_ok_weaken item items kd' :
  entry_ok items kd' -> entry_ok (item :: items) kd'.
Proof.
  intros (d & Hin & Hadj). exists d.
  split; [apply list_elem_of_further, Hin | exact Hadj].
Qed.

Lemma for_each_shape limit items :
  forall s s',
    for_each limit items s = inr s' ->
    NoDup (map fst items) ->
    (forall k, k ∈ map fst items -> k ∉ map fst (filtered_decisions s)) ->
    exists kept,
      filtered_decisions s' = filtered_decisions s ++ kept
      /\ sublist (map fst kept) (map fst items)
      /\ Forall (entry_ok items) kept
      /\ (forall k d, (k, d) ∈ items -> String.eqb (action d) "buy" = false ->
                      (k, d) ∈ kept).
Proof.
  induction items as [|[k d] items IH]; intros s s' Hrun Hnodup Hfresh.
  - injection Hrun as <-. exists []. rewrite app_nil_r.
    split; [reflexivity|]. split; [constructor|]. split; [constructor|].
    intros ? ? Hin. inversion Hin.
  - cbn [map fst] in Hnodup. apply NoDup_cons in Hnodup as [Hk Hnodup].
    rewrite for_each_cons in Hrun.
    destruct (filter_one limit k d s) as [e|s1] eqn:Hone; [discriminate|].
    destruct (filter_one_shape _ _ _ _ _ Hone) as (kept1 & Hf1 & Hkept1 & Hpass1).
    { apply Hfresh. cbn. apply list_elem_of_here. }
    assert (Hkeys1 : map fst kept1 = [] \/ map fst kept1 = [k]).
    { destruct Hkept1 as [->|(d' & -> & _)]; [left | right]; reflexivity. }
    destruct (IH s1 s' Hrun Hnodup) as (kept2 & Hf2 & Hsub2 & Hok2 & Hpass2).
    { intros k' Hk'. rewrite Hf1, map_app, elem_of_app. intros [Hin|Hin].
      - revert Hin. apply Hfresh. cbn. apply list_elem_of_further, Hk'.
      - destruct Hkeys1 as [E|E]; rewrite E in Hin; [inversion Hin|].
        apply list_elem_of_singleton in Hin. subst k'. contradiction. }
    exists (kept1 ++ kept2).
    split; [rewrite Hf2, Hf1, app_assoc; reflexivity|].
    split.
    { rewrite map_app. cbn [map fst].
      destruct Hkeys1 as [E|E]; rewrite E.
      - apply sublist_cons, Hsub2.
      - apply sublist_skip, Hsub2. }
    split.
    { apply Forall_app. split.
      - destruct Hkept1 as [->|(d' & -> & Hadj)]; [constructor|].
        constructor; [|constructor].
        exists d. split; [apply list_elem_of_here | exact Hadj].
      - eapply Forall_impl; [exact Hok2|]. intros kd'. apply entry_ok_weaken. }
    intros k' d0 Hin Hnb. apply elem_of_cons in Hin as [[= -> ->]|Hin].
    + rewrite (Hpass1 Hnb). apply elem_of_app. left. apply list_elem_of_here.
    + apply elem_of_app. right. eapply Hpass2; eassumption.
Qed.


Lemma apply_risk_rules_shape decisions ps out :
  _apply_risk_rules decisions ps = inr out ->
  NoDup (map fst decisions) ->
  sublist (map fst out) (map fst decisions)
  /\ Forall (entry_ok decisions) out
  /\ (forall k d, (k, d) ∈ decisions -> String.eqb (action d) "buy" = false ->
                  (k, d) ∈ out).
Proof.
  unfold _apply_risk_rules. intros Hrun Hnodup.
  destruct (for_each (ps_total_value ps * (2 # 10)) decisions
              (mk_loop_state [] (ps_cash ps))) as [e|s'] eqn:Hloop; [discriminate|].
  injection Hrun as <-.
  destruct (for_each_shape _ _ _ _ Hloop Hnodup) as (kept & Hf & Hrest).
  - intros k _ Hin. inversion Hin.
  - cbn in Hf. rewrite Hf. exact Hrest.
Qed.



(** Three intents for a ledger with 300,000 of cash and 1,000,000 of total
    value. *)
Definition three_intents : dict decision :=
  [("X", mk_decision "buy" 3000 100 "breakout");
   ("Y", mk_decision "buy" 2500 100 "momentum");
   ("Z", mk_decision "sell" 500 100 "stop")].

Ltac distinct_keys :=
  cbn;
  repeat (apply NoDup_cons_2;
          [ let H := fresh in
            intros H;
            repeat (apply elem_of_cons in H as [H|H]; [discriminate H|]);
            inversion H
          | ]);
  apply NoDup_nil_2.

Lemma three_intents_nodup : NoDup (map fst three_intents).
Proof. distinct_keys. Defined.


(** X13: the filter only ever looks at intents whose action is exactly
    "buy".  Whenever it returns a dictionary, every other intent, a SELL in
    particular, is in it unchanged, whatever the cash and the ceiling. *)
Theorem risk_filter_passes_sells decisions ps k d out :
  NoDup (map fst decisions) ->
  (k, d) ∈ decisions ->
  action d <> "buy" ->
  _apply_risk_rules decisions ps = inr out ->
  (k, d) ∈ out.
Proof.
  intros Hnodup Hin Hsell Hrun.
  destruct (apply_risk_rules_shape _ _ _ Hrun Hnodup) as (_ & _ & Hpass).
  apply Hpass; [exact Hin|]. apply String.eqb_neq, Hsell.
Qed.

(** A state whose total value is negative, so that the ceiling is too. *)
Definition negative_state : portfolio_state := mk_portfolio_state 300000 (-1000000).

Lemma risk_filter_passes_sells_witness :
  (NoDup (map fst three_intents)
   /\ ("Z", mk_decision "sell" 500 100 "stop") ∈ three_intents
   /\ action (mk_decision "sell" 500 100 "stop") <> "buy"
   /\ _apply_risk_rules three_intents negative_state
      = inr [("Z", mk_decision "sell" 500 100 "stop")])
  /\ ("Z", mk_decision "sell" 500 100 "stop")
     ∈ [("Z", mk_decision "sell" 500 100 "stop")].
Proof.
  assert (H3 : ("Z", mk_decision "sell" 500 100 "stop") ∈ three_intents).
  { unfold three_intents. do 2 apply list_elem_of_further. apply list_elem_of_here. }
  assert (H4 : action (mk_decision "sell" 500 100 "stop") <> "buy") by discriminate.
  assert (H5 : _apply_risk_rules three_intents negative_state
               = inr [("Z", mk_decision "sell" 500 100 "stop")])
    by (vm_compute; reflexivity).
  split; [exact (conj three_intents_nodup (conj H3 (conj H4 H5)))|].
  exact (risk_filter_passes_sells three_intents negative_state "Z" _ _
           three_intents_nodup H3 H4 H5).
Defined.

End RiskFilterLoop.

(* ===================================================================== *)
(** * puppy/utils/portfolio.py: [get_state] *)
(* ===================================================================== *)

Module PortfolioView.
Import Portfolio.

(** An entry of [positions_with_value]: the position with its valuation. *)
Record position_view := mk_position_view {
  pv_quantity : Z;
  pv_price : Q;
  pv_current_price : Q;
  pv_current_value : Q;
  pv_return : Q
}.

(** The dictionary [get_state] returns. *)
Record state := mk_state {
  st_cash : Q;
  st_positions : gmap string position_view;
  st_total_value : Q;
  st_returns : Q
}.

(** The body of the loop over [self.positions.items()].  Here only a
    missing quote falls back to the stored price; a quote of 0 is used. *)
Definition view_position (w : world) (symbol : string) (pos : position)
    : exn + position_view :=
  let current_price :=
    match current_prices w symbol with
    | Some p => p
    | None => pos_price pos (* Fallback to stored price *)
    end in
  let position_value := (of_int (pos_quantity pos) * current_price)%Q in
  if Qis0 (pos_price pos) then inl ZeroDivisionError
  else
    let position_return := ((current_price - pos_price pos) / pos_price pos)%Q in
    inr (mk_position_view (pos_quantity pos) (pos_price pos) current_price
                          position_value position_return).

(** The loop: it fills [positions_with_value] until a division raises. *)
Definition positions_with_value (w : world) (s : portfolio)
    : exn + gmap string position_view :=
  map_fold
    (fun symbol pos acc =>
       match acc with
       | inl e => inl e
       | inr views =>
           match view_position w symbol pos with
           | inl e => inl e
           | inr v => inr (<[symbol := v]> views)
           end
       end)
    (inr ∅) (positions s).

(** [get_state]; it has no [try], so the exception reaches the caller. *)
Definition get_state (w : world) (s : portfolio) : exn + state :=
  match positions_with_value w s with
  | inl e => inl e
  | inr views =>
      let total_value := get_total_value w s in
      if Qis0 (initial_capital s) then inl ZeroDivisionError
      else
        inr (mk_state (cash s) views total_value
               ((total_value - initial_capital s) / initial_capital s)%Q)
  end.

(** The two keys [_apply_risk_rules] reads from the state. *)
Definition as_portfolio_state (st : state) : GeminiTrader.portfolio_state :=
  GeminiTrader.mk_portfolio_state (st_cash st) (st_total_value st).

End PortfolioView.

(** ** Properties of [get_state] *)

Section StateView.
Import Portfolio PortfolioView.
Local Open Scope Q_scope.

Lemma positions_with_value_spec w s :
  match positions_with_value w s with
  | inl _ =>
      exists symbol pos,
        positions s !! symbol = Some pos /\ Qis0 (pos_price pos) = true
  | inr views =>
      (forall symbol pos,
          positions s !! symbol = Some pos -> Qis0 (pos_price pos) = false)
      /\ forall symbol,
           (inr <$> views !! symbol)
           = (view_position w symbol <$> positions s !! symbol)
  end.
Proof.
  unfold positions_with_value.
  apply (map_fold_weak_ind
    (fun acc m =>
       match acc with
       | inl _ => exists symbol pos, m !! symbol = Some pos /\ Qis0 (pos_price pos) = true
       | inr views =>
           (forall symbol pos, m !! symbol = Some pos -> Qis0 (pos_price pos) = false)
           /\ forall symbol,
                (inr <$> views !! symbol) = (view_position w symbol <$> m !! symbol)
       end)).
  - split; [intros ? ? H; rewrite lookup_empty in H; discriminate|].
    intros symbol. rewrite !lookup_empty. reflexivity.
  - intros i x m r Hnone IH. destruct r as [e|views].
    + destruct IH as (symbol & pos & Hl & Hz). exists symbol, pos.
      split; [|exact Hz]. rewrite lookup_insert_ne; [exact Hl|].
      intros ->. rewrite Hnone in Hl. discriminate.
    + destruct IH as [Hnz Hviews].
      unfold view_position at 1. destruct (Qis0 (pos_price x)) eqn:Hx.
      * exists i, x. split; [apply lookup_insert_eq | exact Hx].
      * split.
        { intros symbol pos. rewrite lookup_insert. case_decide.
          - intros [= <-]. exact Hx.
          - apply Hnz. }
        intros symbol. rewrite !lookup_insert. case_decide.
        { subst symbol. cbn. unfold view_position. rewrite Hx. reflexivity. }
        apply Hviews.
Qed.

(** X14: [get_state] raises exactly when some position is held at an
    average cost of 0 or the initial capital is 0; in every other case it
    returns a state. *)
Theorem get_state_raises_iff w s :
  get_state w s = inl ZeroDivisionError
  <-> (exists symbol pos, positions s !! symbol = Some pos /\ pos_price pos == 0)
      \/ initial_capital s == 0.
Proof.
  unfold get_state. pose proof (positions_with_value_spec w s) as Hspec.
  destruct (positions_with_value w s) as [[]|views].
  - split; [|reflexivity]. intros _. left.
    destruct Hspec as (symbol & pos & Hl & Hz). exists symbol, pos.
    split; [exact Hl | apply Qis0_true, Hz].
  - destruct Hspec as [Hnz _].
    destruct (Qis0 (initial_capital s)) eqn:Hic.
    + split; [|reflexivity]. intros _. right. apply Qis0_true, Hic.
    + split; [discriminate|]. intros [(symbol & pos & Hl & Hz)|Hz]; exfalso.
      * apply Qis0_true in Hz. rewrite (Hnz _ _ Hl) in Hz. discriminate.
      * apply Qis0_true in Hz. rewrite Hic in Hz. discriminate.
Qed.

(** X15: when [get_state] returns, it reports the ledger's cash and the
    total value of [get_total_value]; it lists exactly the symbols held,
    each with its quantity and average cost and a current value of
    quantity * current price.  Without a quote the current price is the
    average cost and the return 0; a quote of 0, which [get_total_value]
    ignores, is taken at face value here: current value 0. *)
Theorem get_state_reports_the_ledger w s st :
  get_state w s = inr st ->
  st_cash st = cash s
  /\ st_total_value st = get_total_value w s
  /\ (forall symbol, st_positions st !! symbol = None <-> positions s !! symbol = None)
  /\ forall symbol pos,
       positions s !! symbol = Some pos ->
       exists v,
         st_positions st !! symbol = Some v
         /\ pv_quantity v = pos_quantity pos
         /\ pv_price v = pos_price pos
         /\ pv_current_value v = of_int (pos_quantity pos) * pv_current_price v
         /\ (current_prices w symbol = None ->
             pv_current_price v = pos_price pos /\ pv_return v == 0)
         /\ (forall p, current_prices w symbol = Some p ->
                       pv_current_price v = p /\ (p == 0 -> pv_current_value v == 0)).
Proof.
  unfold get_state. pose proof (positions_with_value_spec w s) as Hspec.
  destruct (positions_with_value w s) as [e|views]; [discriminate|].
  destruct Hspec as [Hnz Hviews].
  destruct (Qis0 (initial_capital s)); [discriminate|].
  intros [= <-]. cbn [st_cash st_total_value st_positions].
  split; [reflexivity|]. split; [reflexivity|]. split.
  - intros symbol. specialize (Hviews symbol).
    destruct (views !! symbol), (positions s !! symbol); cbn in Hviews;
      try discriminate; split; (reflexivity || discriminate).
  - intros symbol pos Hl. specialize (Hviews symbol). rewrite Hl in Hviews.
    cbn in Hviews. unfold view_position in Hviews. rewrite (Hnz _ _ Hl) in Hviews.
    destruct (views !! symbol) as [v|]; [|discriminate]. cbn in Hviews.
    injection Hviews as ->. eexists. split; [reflexivity|]. cbn.
    split; [reflexivity|]. split; [reflexivity|]. split; [reflexivity|].
    pose proof (Hnz _ _ Hl) as Hp. apply Qis0_false in Hp. split.
    + intros ->. split; [reflexivity|]. field. exact Hp.
    + intros p ->. split; [reflexivity|]. intros ->. ring.
Qed.

Lemma get_state_reports_the_ledger_witness :
  get_state midday holding_X
  = inr (mk_state 990000
           {[ "X" := mk_position_view 100 100 100 (of_int 100 * 100)
                       ((100 - 100) / 100) ]}
           (get_total_value midday holding_X)
           ((get_total_value midday holding_X - 1000000) / 1000000))
  /\ st_cash (mk_state 990000
               {[ "X" := mk_position_view 100 100 100 (of_int 100 * 100)
                           ((100 - 100) / 100) ]}
               (get_total_value midday holding_X)
               ((get_total_value midday holding_X - 1000000) / 1000000))
     = cash holding_X.
Proof.
  assert (H : get_state midday holding_X
    = inr (mk_state 990000
             {[ "X" := mk_position_view 100 100 100 (of_int 100 * 100)
                         ((100 - 100) / 100) ]}
             (get_total_value midday holding_X)
             ((get_total_value midday holding_X - 1000000) / 1000000))).
  { unfold get_state, positions_with_value, holding_X. cbn [positions].
    rewrite map_fold_singleton. reflexivity. }
  split; [exact H|].
  exact (proj1 (get_state_reports_the_ledger midday holding_X _ H)).
Defined.

(** The state of a fresh ledger of 1,000,000. *)
Definition fresh_state : state :=
  mk_state 1000000 ∅ 1000000 ((1000000 - 1000000) / 1000000).

End StateView.

(* ===================================================================== *)
(** * Further properties of the memory store *)
(* ===================================================================== *)

Section MemoryTiers.
Import LayeredMemory.
Local Open Scope Q_scope.

Lemma trim_length {A} (n : Z) (l : list A) :
  (0 <= n)%Z -> (Z.of_nat (length (trim n l)) <= n)%Z.
Proof.
  intros Hn. unfold trim, slice_to.
  destruct (Z.of_nat (length l) >? n)%Z eqn:Hlen; [|lia].
  replace (0 <=? n)%Z with true by lia. rewrite length_take. lia.
Qed.

Lemma trim_fits {A} (n : Z) (l : list A) :
  (Z.of_nat (length l) <= n)%Z -> trim n l = l.
Proof.
  intros Hlen. unfold trim.
  replace (Z.of_nat (length l) >? n)%Z with false by lia. reflexivity.
Qed.

Lemma trim_subseteq {A} (n : Z) (l : list A) : trim n l ⊆ l.
Proof. destruct (trim_is_prefix n l) as [k ->]. apply subseteq_take. Qed.

Lemma sort_desc_length l : length (sort_desc l) = length l.
Proof. apply Permutation_length, sort_desc_perm. Qed.

(** X17: the tiers are bounded.  With non-negative capacities, after every
    [add_memory] the short-term tier holds at most [short_term_capacity]
    entries and the long-term tier at most [long_term_capacity]. *)
Theorem tiers_stay_within_capacity cfg now data memory_type s :
  (0 <= short_term_capacity cfg)%Z ->
  (0 <= long_term_capacity cfg)%Z ->
  (Z.of_nat (length (short_term (add_memory cfg now data memory_type s)))
   <= short_term_capacity cfg)%Z
  /\ (Z.of_nat (length (long_term (add_memory cfg now data memory_type s)))
      <= long_term_capacity cfg)%Z.
Proof.
  intros Hs Hl. unfold add_memory, _maintain_memory_size. cbn [short_term long_term].
  split; apply trim_length; assumption.
Qed.

Lemma tiers_stay_within_capacity_witness :
  ((0 <= short_term_capacity tiny)%Z /\ (0 <= long_term_capacity tiny)%Z)
  /\ (Z.of_nat (length (short_term (add_memory tiny 2 quiet "market_data" after_busy)))
      <= short_term_capacity tiny)%Z
  /\ (Z.of_nat (length (long_term (add_memory tiny 2 quiet "market_data" after_busy)))
      <= long_term_capacity tiny)%Z.
Proof.
  assert (H1 : (0 <= short_term_capacity tiny)%Z) by (cbn; lia).
  assert (H2 : (0 <= long_term_capacity tiny)%Z) by (cbn; lia).
  split; [split; assumption|].
  exact (tiers_stay_within_capacity tiny 2 quiet "market_data" after_busy H1 H2).
Defined.

(** X18: below capacity nothing is forgotten.  If the short-term tier has
    room for one more entry, [add_memory] keeps all its entries and the new
    one; the same holds for the long-term tier when the new entry reaches
    the relevance threshold, and an entry below the threshold leaves a
    long-term tier that is within capacity as it was, up to order. *)
Theorem room_means_nothing_is_evicted cfg now data memory_type s :
  (Z.of_nat (length (short_term s)) < short_term_capacity cfg)%Z ->
  (Z.of_nat (length (long_term s)) < long_term_capacity cfg)%Z ->
  short_term (add_memory cfg now data memory_type s)
    ≡ₚ short_term s ++ [_create_memory_entry now data memory_type]
  /\ long_term (add_memory cfg now data memory_type s)
       ≡ₚ (if Qgeb (_calculate_importance data) (relevance_threshold cfg)
           then long_term s ++ [_create_memory_entry now data memory_type]
           else long_term s).
Proof.
  intros Hs Hl. unfold add_memory, _maintain_memory_size. cbn [short_term long_term].
  split.
  - rewrite trim_fits; [apply sort_desc_perm|].
    rewrite sort_desc_length, length_app. cbn. lia.
  - cbn [importance_score _create_memory_entry].
    rewrite trim_fits; [apply sort_desc_perm|].
    rewrite sort_desc_length.
    destruct (Qgeb _ _); [rewrite length_app; cbn|]; lia.
Qed.

Lemma room_means_nothing_is_evicted_witness :
  ((Z.of_nat (length (short_term one_busy_entry)) < short_term_capacity roomy)%Z
   /\ (Z.of_nat (length (long_term one_busy_entry)) < long_term_capacity roomy)%Z)
  /\ short_term (add_memory roomy 2 hectic "market_data" one_busy_entry)
       ≡ₚ short_term one_busy_entry ++ [_create_memory_entry 2 hectic "market_data"].
Proof.
  assert (H1 : (Z.of_nat (length (short_term one_busy_entry))
                < short_term_capacity roomy)%Z) by (vm_compute; reflexivity).
  assert (H2 : (Z.of_nat (length (long_term one_busy_entry))
                < long_term_capacity roomy)%Z) by (vm_compute; reflexivity).
  split; [split; assumption|].
  exact (proj1 (room_means_nothing_is_evicted roomy 2 hectic "market_data"
                  one_busy_entry H1 H2)).
Defined.

(** *** What the tiers hold *)

Lemma reachable_tiers cfg s :
  reachable cfg s ->
  Forall (fun e => relevance_threshold cfg <= importance_score e) (long_term s)
  /\ Forall (fun e => 0 <= importance_score e <= 1) (short_term s ++ long_term s).
Proof.
  induction 1 as [|now data memory_type s Hs [IHlong IHall]].
  - split; constructor.
  - apply Forall_app in IHall as [IHs IHl].
    set (e := _create_memory_entry now data memory_type).
    assert (He : 0 <= importance_score e <= 1) by apply calculate_importance_range.
    unfold add_memory, _maintain_memory_size. cbn [short_term long_term]. fold e.
    assert (Hshort : Forall (fun e => 0 <= importance_score e <= 1)
                       (trim (short_term_capacity cfg)
                          (sort_desc (short_term s ++ [e])))).
    { rewrite Forall_forall. intros x Hx. apply trim_subseteq in Hx.
      rewrite sort_desc_perm in Hx. apply elem_of_app in Hx as [Hx|Hx].
      - rewrite Forall_forall in IHs. apply IHs, Hx.
      - apply list_elem_of_singleton in Hx. subst x. exact He. }
    destruct (Qgeb (importance_score e) (relevance_threshold cfg)) eqn:Hrel.
    + apply Qgeb_true in Hrel. split; [|apply Forall_app; split; [exact Hshort|]].
      * rewrite Forall_forall. intros x Hx. apply trim_subseteq in Hx.
        rewrite sort_desc_perm in Hx. apply elem_of_app in Hx as [Hx|Hx].
        -- rewrite Forall_forall in IHlong. apply IHlong, Hx.
        -- apply list_elem_of_singleton in Hx. subst x. exact Hrel.
      * rewrite Forall_forall. intros x Hx. apply trim_subseteq in Hx.
        rewrite sort_desc_perm in Hx. apply elem_of_app in Hx as [Hx|Hx].
        -- rewrite Forall_forall in IHl. apply IHl, Hx.
        -- apply list_elem_of_singleton in Hx. subst x. exact He.
    + split; [|apply Forall_app; split; [exact Hshort|]].
      * rewrite Forall_forall. intros x Hx. apply trim_subseteq in Hx.
        rewrite sort_desc_perm in Hx.
        rewrite Forall_forall in IHlong. apply IHlong, Hx.
      * rewrite Forall_forall. intros x Hx. apply trim_subseteq in Hx.
        rewrite sort_desc_perm in Hx.
        rewrite Forall_forall in IHl. apply IHl, Hx.
Qed.

Lemma filter_all {A} (f : A -> bool) l :
  Forall (fun x => f x = true) l -> List.filter f l = l.
Proof.
  induction 1 as [|x l Hx _ IH]; [reflexivity|]. cbn. rewrite Hx, IH. reflexivity.
Qed.

(** X19: in any store built by [add_memory] calls, every long-term entry
    is at or above the relevance threshold and every score lies in [0, 1];
    so recall returns the short-term tier filtered to the entries at or
    above the threshold, followed by the whole long-term tier. *)
Theorem long_term_tier_always_qualifies cfg query s :
  reachable cfg s ->
  Forall (fun e => relevance_threshold cfg <= importance_score e) (long_term s)
  /\ Forall (fun e => 0 <= importance_score e <= 1) (short_term s ++ long_term s)
  /\ retrieve_relevant_memories cfg query s
     = List.filter
         (fun e => Qgeb (importance_score e) (relevance_threshold cfg))
         (short_term s)
       ++ long_term s.
Proof.
  intros Hs. destruct (reachable_tiers cfg s Hs) as [Hlong Hall].
  split; [exact Hlong|]. split; [exact Hall|].
  unfold retrieve_relevant_memories. f_equal.
  apply filter_all. eapply Forall_impl; [exact Hlong|].
  intros e He. apply Qgeb_true, He.
Qed.

Lemma long_term_tier_always_qualifies_witness :
  reachable roomy two_entries
  /\ Forall (fun e => relevance_threshold roomy <= importance_score e)
            (long_term two_entries)
  /\ retrieve_relevant_memories roomy "" two_entries
     = List.filter
         (fun e => Qgeb (importance_score e) (relevance_threshold roomy))
         (short_term two_entries)
       ++ long_term two_entries.
Proof.
  assert (H : reachable roomy two_entries)
    by (repeat apply reachable_add; apply reachable_init).
  split; [exact H|].
  destruct (long_term_tier_always_qualifies roomy "" two_entries H)
    as (Hlong & _ & Hrecall).
  split; [exact Hlong | exact Hrecall].
Defined.

(** *** Saturation of the score *)

Definition averages_differ (row : stock_data) : Prop :=
  exists ma_20 ma_50,
    MA_20d row = Some ma_20 /\ MA_50d row = Some ma_50 /\ ~ ma_20 == ma_50.

Lemma row_bonus_with_averages row :
  averages_differ row -> 3 # 10 <= row_bonus row.
Proof.
  intros (a & b & Ha & Hb & Hne).
  assert (Hv : 0 <= volume_bonus row).
  { unfold volume_bonus. destruct (Volume_MA row); [destruct (Qgtb _ _)|]; lra. }
  assert (Hr : 0 <= return_bonus row).
  { unfold return_bonus. destruct (Qgtb _ _); lra. }
  assert (Ho : 0 <= oscillator_bonus row).
  { unfold oscillator_bonus. cbv zeta. destruct (_ || _); lra. }
  assert (Hm : average_bonus row == 3 # 10).
  { unfold average_bonus. rewrite Ha, Hb.
    destruct (Qgtb a b) eqn:E1; [reflexivity|].
    destruct (Qltb a b) eqn:E2; [reflexivity|].
    exfalso. apply Hne. apply Qgtb_false in E1. apply Qltb_false in E2. lra. }
  unfold row_bonus. lra.
Qed.

Lemma total_bonus_with_averages rows :
  Forall averages_differ rows ->
  (3 # 10) * of_int (Z.of_nat (length rows)) <= total_bonus rows.
Proof.
  induction 1 as [|row rows Hrow _ IH].
  - vm_compute. discriminate.
  - change (total_bonus (row :: rows)) with (row_bonus row + total_bonus rows).
    pose proof (row_bonus_with_averages row Hrow).
    replace (Z.of_nat (length (row :: rows))) with (1 + Z.of_nat (length rows))%Z
      by (cbn [length]; lia).
    rewrite of_int_plus. change (of_int 1) with 1. lra.
Qed.

(** X20: the score saturates.  The bonuses of all rows of one observation
    add up, and a row whose 20- and 50-day averages are both known and
    differ brings 0.3: an observation with four or more such rows always
    scores the maximum, 1. *)
Theorem four_rows_score_the_maximum rows :
  Forall averages_differ rows ->
  (4 <= length rows)%nat ->
  _calculate_importance (Some rows) == 1.
Proof.
  intros Hrows Hlen. rewrite calculate_importance_bonus.
  pose proof (total_bonus_with_averages rows Hrows) as Htotal.
  assert (Hfour : of_int 4 <= of_int (Z.of_nat (length rows)))
    by (apply of_int_le; lia).
  change (of_int 4) with 4 in Hfour.
  unfold py_min. destruct (Qltb 1 (total_bonus rows)) eqn:E; [reflexivity|].
  apply Qltb_false in E. lra.
Qed.

Definition trending_row : stock_data :=
  mk_stock_data (Some 100) (Some 100) (Some 0) (Some 50) (Some 105) (Some 100).

Lemma trending_row_averages_differ : averages_differ trending_row.
Proof. exists 105, 100. repeat split. discriminate. Defined.

Lemma four_rows_score_the_maximum_witness :
  (Forall averages_differ (replicate 4 trending_row)
   /\ (4 <= length (replicate 4 trending_row))%nat)
  /\ _calculate_importance (Some (replicate 4 trending_row)) == 1.
Proof.
  assert (H1 : Forall averages_differ (replicate 4 trending_row))
    by (repeat constructor; exact trending_row_averages_differ).
  assert (H2 : (4 <= length (replicate 4 trending_row))%nat) by (cbn; lia).
  split; [split; assumption|].
  exact (four_rows_score_the_maximum (replicate 4 trending_row) H1 H2).
Defined.

End MemoryTiers.

(* ===================================================================== *)
(** * puppy/utils/real_time_data.py: quotes *)
(* ===================================================================== *)

From Stdlib Require Import Ascii.

Module Quotes.

(** [s.endswith(suffix)] *)
Fixpoint endswith (suffix s : string) : bool :=
  String.eqb s suffix
  || match s with
     | EmptyString => false
     | String _ s' => endswith suffix s'
     end.

(** [s.replace('.NS', '')]: every occurrence, scanning from the left. *)
Fixpoint replace_NS (s : string) : string :=
  match s with
  | String "."%char (String "N"%char (String "S"%char rest)) => replace_NS rest
  | String c s' => String c (replace_NS s')
  | EmptyString => EmptyString
  end.

(** The ticker [get_real_time_price] asks for: the symbol with the [.NS]
    suffix ensured. *)
Definition ticker_of (symbol : string) : string :=
  if endswith ".NS" symbol then symbol else (symbol ++ ".NS")%string.

(** [get_real_time_price]; [market] is what the data provider answers for
    a ticker, [None] when it has no price or the request fails. *)
Definition get_real_time_price (market : string -> option Q) (symbol : string)
    : option Q :=
  market (ticker_of symbol).

(** [get_multiple_real_time_prices]: the dictionary from cleaned symbol to
    price (possibly [None]), filled in the order of [symbols]. *)
Definition get_multiple_real_time_prices (market : string -> option Q)
    (symbols : list string) : gmap string (option Q) :=
  foldl (fun prices symbol =>
           let clean_symbol := replace_NS symbol in
           <[clean_symbol := get_real_time_price market symbol]> prices)
        ∅ symbols.

(** [current_prices.get(symbol)] on that dictionary. *)
Definition quote (market : string -> option Q) (symbols : list string)
    (symbol : string) : option Q :=
  match get_multiple_real_time_prices market symbols !! symbol with
  | Some price => price
  | None => None
  end.

End Quotes.

(** ** Properties of the market-hours check and of the quotes *)

Section MarketHours.
Import RealTimeDataManager.

Definition valid_time (t : time) : Prop :=
  0 <= hour t < 24 /\ 0 <= minute t < 60 /\ 0 <= second t < 60
  /\ 0 <= microsecond t < 1000000.

(** X21: the market is open from 09:15:00 up to and including 15:30:00
    sharp, at any date: a time of day counts as open exactly when its
    minute is 09:15 or later and either before 15:30 or the very instant
    15:30:00.000000. *)
Theorem market_hours_window t :
  valid_time t ->
  is_market_open t = true
  <-> 9 * 60 + 15 <= hour t * 60 + minute t
      /\ (hour t * 60 + minute t < 15 * 60 + 30
          \/ (hour t = 15 /\ minute t = 30 /\ second t = 0 /\ microsecond t = 0)).
Proof.
  intros (Hh & Hm & Hs & Hu).
  unfold is_market_open, time_le, time_key, market_open, market_close. cbn.
  rewrite andb_true_iff, !Z.leb_le. lia.
Qed.

Lemma market_hours_window_witness :
  valid_time (mk_time 15 30 0 1)
  /\ is_market_open (mk_time 15 30 0 1) = false.
Proof.
  assert (H : valid_time (mk_time 15 30 0 1)) by (unfold valid_time; cbn; lia).
  split; [exact H|].
  destruct (is_market_open (mk_time 15 30 0 1)) eqn:E; [|reflexivity].
  apply (proj1 (market_hours_window (mk_time 15 30 0 1) H)) in E.
  cbn in E. lia.
Defined.

End MarketHours.

Section Symbols.
Import Quotes.

(** A symbol without a dot, such as [RELIANCE]. *)
Fixpoint plain (s : string) : Prop :=
  match s with
  | EmptyString => True
  | String c s' => c <> "."%char /\ plain s'
  end.

(** The symbols in use: a plain name, with or without the [.NS] suffix. *)
Definition well_formed (s : string) : Prop :=
  plain s \/ exists base, plain base /\ s = (base ++ ".NS")%string.

Lemma replace_NS_plain s : plain s -> replace_NS s = s.
Proof.
  induction s as [|c s IH]; [reflexivity|]. intros [Hc Hs].
  cbn [replace_NS].
  destruct c as [b0 b1 b2 b3 b4 b5 b6 b7].
  destruct b0, b1, b2, b3, b4, b5, b6, b7;
    try (rewrite (IH Hs); destruct s as [|? [|? ?]]; reflexivity).
  exfalso. apply Hc. reflexivity.
Qed.

Lemma replace_NS_suffixed base : plain base -> replace_NS (base ++ ".NS") = base.
Proof.
  induction base as [|c base IH]; [reflexivity|]. intros [Hc Hs].
  change (String c base ++ ".NS")%string with (String c (base ++ ".NS")%string).
  cbn [replace_NS].
  destruct c as [b0 b1 b2 b3 b4 b5 b6 b7].
  destruct b0, b1, b2, b3, b4, b5, b6, b7;
    try (rewrite (IH Hs); destruct (base ++ ".NS")%string as [|? [|? ?]]; reflexivity).
  exfalso. apply Hc. reflexivity.
Qed.

Lemma endswith_plain s : plain s -> endswith ".NS" s = false.
Proof.
  induction s as [|c s IH]; [reflexivity|]. intros [Hc Hs].
  cbn [endswith]. rewrite (IH Hs), orb_false_r.
  apply String.eqb_neq. intros [= -> _]. apply Hc. reflexivity.
Qed.

Lemma endswith_suffixed base : endswith ".NS" (base ++ ".NS") = true.
Proof.
  induction base as [|c base IH]; [reflexivity|].
  change (String c base ++ ".NS")%string with (String c (base ++ ".NS")%string).
  cbn [endswith]. rewrite IH. apply orb_true_r.
Qed.

Lemma suffixed_not_plain base : ~ plain (base ++ ".NS").
Proof.
  induction base as [|c base IH].
  - intros [Hc _]. apply Hc. reflexivity.
  - change (String c base ++ ".NS")%string with (String c (base ++ ".NS")%string).
    intros [_ H]. exact (IH H).
Qed.

(** Both spellings of a symbol lead to the same dictionary key and the
    same ticker. *)
Lemma well_formed_normal s :
  well_formed s ->
  exists base,
    plain base /\ (s = base \/ s = (base ++ ".NS")%string)
    /\ replace_NS s = base /\ ticker_of s = (base ++ ".NS")%string.
Proof.
  intros [Hs|(base & Hbase & ->)].
  - exists s. split; [exact Hs|]. split; [left; reflexivity|].
    split; [apply replace_NS_plain, Hs|].
    unfold ticker_of. rewrite endswith_plain by exact Hs. reflexivity.
  - exists base. split; [exact Hbase|]. split; [right; reflexivity|].
    split; [apply replace_NS_suffixed, Hbase|].
    unfold ticker_of. rewrite endswith_suffixed. reflexivity.
Qed.

Lemma prices_spec market symbols :
  Forall well_formed symbols ->
  forall acc : gmap string (option Q),
    (forall k v, acc !! k = Some v -> plain k /\ v = market (k ++ ".NS")%string) ->
    (forall k v,
        foldl (fun prices symbol =>
                 <[replace_NS symbol := get_real_time_price market symbol]> prices)
              acc symbols !! k = Some v ->
        plain k /\ v = market (k ++ ".NS")%string)
    /\ forall k,
         (is_Some (acc !! k) \/ exists s, s ∈ symbols /\ replace_NS s = k) ->
         is_Some (foldl (fun prices symbol =>
                           <[replace_NS symbol := get_real_time_price market symbol]>
                             prices)
                        acc symbols !! k).
Proof.
  induction 1 as [|s symbols Hs _ IH]; intros acc Hacc.
  - cbn. split; [exact Hacc|].
    intros k [Hk|(s & Hin & _)]; [exact Hk | inversion Hin].
  - cbn [foldl].
    destruct (well_formed_normal s Hs) as (base & Hbase & _ & Hclean & Hticker).
    destruct (IH (<[replace_NS s := get_real_time_price market s]> acc)) as [Hinv Hkeys].
    { intros k v. rewrite lookup_insert. case_decide as Hk.
      - intros [= <-]. subst k. rewrite Hclean. split; [exact Hbase|].
        unfold get_real_time_price. rewrite Hticker. reflexivity.
      - apply Hacc. }
    split; [exact Hinv|].
    intros k Hk. apply Hkeys.
    destruct Hk as [Hk|(s' & Hin & Hs')].
    + left. rewrite lookup_insert. case_decide; [eexists; reflexivity | exact Hk].
    + apply elem_of_cons in Hin as [->|Hin].
      * left. rewrite Hs', lookup_insert_eq. eexists; reflexivity.
      * right. exists s'. split; assumption.
Qed.

(** X22: both spellings of a symbol reach the same quote.  For a list of
    well-formed symbols, asking the dictionary of
    [get_multiple_real_time_prices] for a plain symbol that is in the list,
    bare or with the [.NS] suffix, gives what the data provider answers
    for the suffixed ticker. *)
Theorem quote_of_plain_symbol market symbols k :
  Forall well_formed symbols ->
  plain k ->
  k ∈ symbols \/ (k ++ ".NS")%string ∈ symbols ->
  quote market symbols k = market (k ++ ".NS")%string.
Proof.
  intros Hwf Hk Hin. unfold quote, get_multiple_real_time_prices.
  destruct (prices_spec market symbols Hwf ∅) as [Hinv Hkeys].
  { intros ? ? H. rewrite lookup_empty in H. discriminate. }
  destruct (Hkeys k) as [v Hv].
  { right. destruct Hin as [Hin|Hin].
    - exists k. split; [exact Hin | apply replace_NS_plain, Hk].
    - exists (k ++ ".NS")%string. split; [exact Hin | apply replace_NS_suffixed, Hk]. }
  cbv zeta in Hv. rewrite Hv. apply (Hinv _ _ Hv).
Qed.

Definition two_symbols : list string := ["RELIANCE.NS"; "TCS"].

Lemma two_symbols_well_formed : Forall well_formed two_symbols.
Proof.
  apply Forall_cons_2; [|apply Forall_cons_2; [|apply Forall_nil_2]].
  - right. exists "RELIANCE". split; [|reflexivity].
    cbn. repeat split; discriminate.
  - left. cbn. repeat split; discriminate.
Defined.

Lemma quote_of_plain_symbol_witness :
  (Forall well_formed two_symbols /\ plain "RELIANCE"
   /\ ("RELIANCE" ∈ two_symbols \/ ("RELIANCE" ++ ".NS")%string ∈ two_symbols))
  /\ quote (fun _ => Some 2500%Q) two_symbols "RELIANCE" = Some 2500%Q.
Proof.
  assert (H2 : plain "RELIANCE") by (cbn; repeat split; discriminate).
  assert (H3 : "RELIANCE" ∈ two_symbols \/ ("RELIANCE" ++ ".NS")%string ∈ two_symbols)
    by (right; apply list_elem_of_here).
  split; [exact (conj two_symbols_well_formed (conj H2 H3))|].
  exact (quote_of_plain_symbol (fun _ => Some 2500%Q) two_symbols "RELIANCE"
           two_symbols_well_formed H2 H3).
Defined.

(** X23: but the dictionary is keyed by the cleaned symbol only.  For a
    list of well-formed symbols it has no entry under a suffixed symbol,
    so a ledger that holds a position under such a symbol never sees a
    quote for it: [get_total_value] falls back to the stored price. *)
Theorem suffixed_symbol_has_no_quote market symbols base now stamp pos :
  Forall well_formed symbols ->
  plain base ->
  quote market symbols (base ++ ".NS") = None
  /\ Portfolio.price_or_stored
       (mk_world now (quote market symbols) stamp) (base ++ ".NS") pos
     = Portfolio.pos_price pos.
Proof.
  intros Hwf Hbase.
  assert (Hnone : quote market symbols (base ++ ".NS") = None).
  { unfold quote, get_multiple_real_time_prices.
    destruct (prices_spec market symbols Hwf ∅) as [Hinv _].
    { intros ? ? H. rewrite lookup_empty in H. discriminate. }
    cbv zeta in Hinv.
    destruct (foldl _ ∅ symbols !! (base ++ ".NS")%string) as [v|] eqn:Hv;
      [|reflexivity].
    destruct (Hinv _ _ Hv) as [Hplain _].
    exfalso. exact (suffixed_not_plain base Hplain). }
  split; [exact Hnone|].
  unfold Portfolio.price_or_stored. cbn [current_prices]. rewrite Hnone. reflexivity.
Qed.

Lemma suffixed_symbol_has_no_quote_witness :
  (Forall well_formed two_symbols /\ plain "RELIANCE")
  /\ quote (fun _ => Some 2500%Q) two_symbols "RELIANCE.NS" = None.
Proof.
  assert (H2 : plain "RELIANCE") by (cbn; repeat split; discriminate).
  split; [exact (conj two_symbols_well_formed H2)|].
  exact (proj1 (suffixed_symbol_has_no_quote (fun _ => Some 2500%Q) two_symbols
                  "RELIANCE" (RealTimeDataManager.mk_time 11 0 0 0) 0
                  (Portfolio.mk_position 10 2400) two_symbols_well_formed H2)).
Defined.

End Symbols.

(* ===================================================================== *)
(** * trading_system.py: sizing and executing a decision *)
(* ===================================================================== *)

Module TradeExecution.
Import TradingSystem.
Local Open Scope py_scope.

(** [PaperTradingEngine.get_portfolio_value]; [price_of] is
    [data_collector.get_current_price], which answers 0.0 when it has no
    price. *)
Definition get_portfolio_value (price_of : string -> Q) (self : engine) : Q :=
  map_fold (fun symbol position total_value =>
              (total_value + of_int (quantity position) * price_of symbol)%Q)
           (cash_balance self) (portfolio self).

Definition position_size_pct : Q := 5 # 100.

(** [PaperTradingEngine.calculate_position_size] *)
Definition calculate_position_size {S R} (price portfolio_value : Q) : M S R Z :=
  let position_value := (portfolio_value * position_size_pct)%Q in
  do q <- fdiv position_value price;
  let quantity := py_int q in
  ret (Z.max 1 quantity). (* At least 1 share *)

(** The [Trade] handed to [db_manager.save_trade].  [t_pnl] is the figure
    written into the reason of a SELL; the timestamp and the copy of the
    indicators are left out. *)
Record trade := mk_trade {
  t_symbol : string;
  t_action : string;
  t_quantity : Z;
  t_price : Q;
  t_amount : Q;
  t_reasoning : string;
  t_pnl : option Q;
  t_news_sentiment : Q;
  t_portfolio_value : Q;
  t_cash_balance : Q
}.

(** The [MemoryRecord] handed to [memory_system.add_memory]. *)
Record memory_record := mk_memory_record {
  m_symbol : string;
  m_data_type : string;
  m_action : string;
  m_price : Q;
  m_portfolio_value : Q;
  m_importance_score : Q
}.

(** The keys of a decision that are read. *)
Record decision := mk_decision {
  d_action : option string;
  d_reasoning : option string
}.

(** The parts of a [TradingSystem] the function works on: the engine, the
    trades saved so far and the memories added so far. *)
Record system := mk_system {
  trading_engine : engine;
  saved_trades : list trade;
  added_memories : list memory_record
}.

Definition set_engine (e : engine) (self : system) : system :=
  mk_system e (saved_trades self) (added_memories self).
Definition save_trade (t : trade) (self : system) : system :=
  mk_system (trading_engine self) (saved_trades self ++ [t]) (added_memories self).
Definition add_memory (m : memory_record) (self : system) : system :=
  mk_system (trading_engine self) (saved_trades self) (added_memories self ++ [m]).

(** A call of a method of [self.trading_engine]: its return value, or the
    exception it lets through. *)
Definition call_engine {R} (f : engine -> outcome bool unit * engine)
    : M system R bool :=
  fun self =>
    match f (trading_engine self) with
    | (Returned b, e) => (Normal b, set_engine e self)
    | (Raised x, e) => (Raised x, set_engine e self)
    | (Normal _, e) => (Normal false, set_engine e self)
    end.

Definition get_or_else {A} (default : A) (v : option A) : A :=
  match v with Some x => x | None => default end.

(** [TradingSystem._execute_trade_decision]; [current_price] is
    [technical_indicators.get('current_price', 0)]. *)
Definition _execute_trade_decision (price_of : string -> Q) (symbol : string)
    (decision : decision) (current_price news_sentiment : Q)
    : M system unit unit :=
  let action := get_or_else "HOLD" (d_action decision) in
  (if String.eqb action "HOLD" || Qis0 current_price then return_ tt else ret tt);;
  do self <- get;
  let portfolio_value := get_portfolio_value price_of (trading_engine self) in
  (if String.eqb action "BUY" then
     do quantity <- calculate_position_size current_price portfolio_value;
     do ok <- call_engine (execute_buy symbol current_price quantity);
     if ok then
       do self <- get;
       modify (save_trade
                 (mk_trade symbol "BUY" quantity current_price
                    (current_price * of_int quantity)
                    (get_or_else "" (d_reasoning decision)) None news_sentiment
                    portfolio_value (cash_balance (trading_engine self))))
     else ret tt
   else if String.eqb action "SELL"
           && bool_decide (is_Some (portfolio (trading_engine self) !! symbol)) then
     (* Sell all holdings for this stock *)
     let quantity :=
       match portfolio (trading_engine self) !! symbol with
       | Some h => TradingSystem.quantity h
       | None => 0
       end in
     do ok <- call_engine (fun e =>
                let r := execute_sell symbol current_price quantity e in
                (Returned (fst r), snd r));
     if ok then
       do self <- get;
       let avg_price :=
         match portfolio (trading_engine self) !! symbol with
         | Some h => avg_price h
         | None => current_price
         end in
       let pnl := ((current_price - avg_price) * of_int quantity)%Q in
       modify (save_trade
                 (mk_trade symbol "SELL" quantity current_price
                    (current_price * of_int quantity)
                    (get_or_else "" (d_reasoning decision)) (Some pnl)
                    news_sentiment portfolio_value
                    (cash_balance (trading_engine self))))
     else ret tt
   else ret tt);;
  (* Store trade decision in memory *)
  modify (add_memory
            (mk_memory_record symbol "TRADE" action current_price portfolio_value
                              (8 # 10))).

End TradeExecution.

(** ** Properties of the paper-trading engine *)

Section Engine.
Import TradingSystem TradeExecution.
Local Open Scope Q_scope.

Lemma execute_buy_eq symbol price q e :
  execute_buy symbol price q e =
  if negb (can_buy e symbol price q) then (Returned false, e)
  else
    let e1 := mk_engine (cash_balance e - price * of_int q) (portfolio e) in
    match portfolio e !! symbol with
    | Some h =>
        if Qis0 (of_int (quantity h + q)) then (Raised ZeroDivisionError, e1)
        else
          (Returned true,
           mk_engine (cash_balance e1)
             (<[symbol := mk_holding (quantity h + q)
                            ((of_int (quantity h) * avg_price h + of_int q * price)
                             / of_int (quantity h + q))]> (portfolio e)))
    | None =>
        (Returned true,
         mk_engine (cash_balance e1) (<[symbol := mk_holding q price]> (portfolio e)))
    end.
Proof.
  destruct e as [c p].
  cbv [execute_buy bind fdiv get ret return_ raise modify cash_balance portfolio].
  repeat (case_match; simplify_eq; try reflexivity; try congruence).
Qed.

Lemma alter_as_insert {A} (f : A -> A) (m : gmap string A) i x :
  m !! i = Some x -> alter f i m = <[i := f x]> m.
Proof.
  intros Hx. apply map_eq. intros j. rewrite lookup_alter, lookup_insert.
  case_decide; [subst j; rewrite Hx|]; reflexivity.
Qed.

(** X24: the engine keeps to its limits.  [execute_buy] leaves
    non-negative cash non-negative and never takes the number of positions
    above ten (nor does [execute_sell]); and once ten positions are held it
    refuses every buy, also one that would only add to a position already
    held. *)
Theorem engine_keeps_to_its_limits symbol price q e :
  0 <= cash_balance e ->
  (Z.of_nat (size (portfolio e)) <= max_positions)%Z ->
  0 <= cash_balance (snd (execute_buy symbol price q e))
  /\ (Z.of_nat (size (portfolio (snd (execute_buy symbol price q e))))
      <= max_positions)%Z
  /\ (Z.of_nat (size (portfolio (snd (execute_sell symbol price q e))))
      <= max_positions)%Z
  /\ (Z.of_nat (size (portfolio e)) = max_positions ->
      execute_buy symbol price q e = (Returned false, e)).
Proof.
  intros Hcash Hsize. rewrite execute_buy_eq. unfold can_buy.
  split; [|split; [|split]].
  - destruct (Qgeb _ _) eqn:Hafford; cbn [andb negb]; [|exact Hcash].
    apply Qgeb_true in Hafford.
    destruct (_ <? _)%Z; cbn [negb]; [|exact Hcash].
    cbv zeta. destruct (portfolio e !! symbol); [destruct (Qis0 _)|]; cbn; lra.
  - destruct (Qgeb _ _); cbn [andb negb]; [|exact Hsize].
    destruct (Z.of_nat (size (portfolio e)) <? max_positions)%Z eqn:Hroom;
      cbn [negb]; [|exact Hsize].
    apply Z.ltb_lt in Hroom. cbv zeta.
    destruct (portfolio e !! symbol) as [h|] eqn:Hh; [destruct (Qis0 _)|]; cbn.
    + exact Hsize.
    + rewrite map_size_insert_Some by eauto. exact Hsize.
    + rewrite map_size_insert_None by exact Hh. lia.
  - unfold execute_sell, can_sell.
    destruct (portfolio e !! symbol) as [h|] eqn:Hh; [|exact Hsize].
    destruct (quantity h >=? q)%Z; cbn [negb]; [|exact Hsize].
    cbn [portfolio cash_balance].
    rewrite (alter_as_insert _ _ _ _ Hh), lookup_insert_eq. cbn [quantity].
    destruct (quantity h - q =? 0)%Z; cbn [snd portfolio].
    + rewrite delete_insert_eq, map_size_delete_Some by eauto. lia.
    + rewrite map_size_insert_Some by eauto. exact Hsize.
  - intros Hfull. replace (_ <? _)%Z with false by lia.
    rewrite andb_false_r. reflexivity.
Qed.

Definition new_engine : engine := mk_engine 1000000 ∅.

Lemma engine_keeps_to_its_limits_witness :
  (0 <= cash_balance new_engine
   /\ (Z.of_nat (size (portfolio new_engine)) <= max_positions)%Z)
  /\ 0 <= cash_balance (snd (execute_buy "TCS.NS" 3500 14 new_engine))
  /\ (Z.of_nat (size (portfolio (snd (execute_buy "TCS.NS" 3500 14 new_engine))))
      <= max_positions)%Z.
Proof.
  assert (H1 : 0 <= cash_balance new_engine) by (cbn; discriminate).
  assert (H2 : (Z.of_nat (size (portfolio new_engine)) <= max_positions)%Z).
  { cbn [new_engine portfolio]. rewrite map_size_empty. unfold max_positions. lia. }
  split; [split; assumption|].
  destruct (engine_keeps_to_its_limits "TCS.NS" 3500 14 new_engine H1 H2)
    as (Ha & Hb & _).
  split; assumption.
Defined.

(** X25: buying and selling back undoes itself on the positions.  If the
    engine accepts a buy of a symbol it does not hold, selling the same
    quantity at the same price succeeds and leaves the positions exactly as
    they were before the buy; the cash balance is the one before the buy,
    less price * quantity and then plus price * quantity. *)
Theorem buy_then_sell_restores_engine symbol price q e :
  portfolio e !! symbol = None ->
  can_buy e symbol price q = true ->
  exists e1 e2,
    execute_buy symbol price q e = (Returned true, e1)
    /\ execute_sell symbol price q e1 = (true, e2)
    /\ portfolio e2 = portfolio e
    /\ cash_balance e2 = cash_balance e - price * of_int q + price * of_int q.
Proof.
  intros Hnone Hcan. rewrite execute_buy_eq, Hcan, Hnone. cbn [negb]. cbv zeta.
  eexists _, _. split; [reflexivity|].
  unfold execute_sell, can_sell. cbn [portfolio cash_balance].
  rewrite lookup_insert_eq. cbn [quantity].
  replace (q >=? q)%Z with true by lia. cbn [negb].
  rewrite (alter_as_insert _ _ symbol (mk_holding q price)) by apply lookup_insert_eq.
  rewrite lookup_insert_eq. cbn [quantity avg_price].
  replace (q - q =? 0)%Z with true by lia.
  split; [reflexivity|]. cbn [portfolio cash_balance].
  split; [|reflexivity].
  rewrite delete_insert_eq, delete_insert_eq. apply delete_id, Hnone.
Qed.

Lemma buy_then_sell_restores_engine_witness :
  (portfolio new_engine !! "TCS.NS" = None
   /\ can_buy new_engine "TCS.NS" 3500 14 = true)
  /\ exists e1 e2,
       execute_buy "TCS.NS" 3500 14 new_engine = (Returned true, e1)
       /\ execute_sell "TCS.NS" 3500 14 e1 = (true, e2)
       /\ portfolio e2 = portfolio new_engine
       /\ cash_balance e2
          = cash_balance new_engine - 3500 * of_int 14 + 3500 * of_int 14.
Proof.
  assert (H1 : portfolio new_engine !! "TCS.NS" = None) by apply lookup_empty.
  assert (H2 : can_buy new_engine "TCS.NS" 3500 14 = true).
  { unfold can_buy. cbn [new_engine portfolio cash_balance].
    rewrite map_size_empty. reflexivity. }
  split; [split; assumption|].
  exact (buy_then_sell_restores_engine "TCS.NS" 3500 14 new_engine H1 H2).
Defined.


(** A share at 3,500 against a portfolio of 10,000: 5% is 500, and the
    size is one share all the same. *)
Lemma one_share_beyond_five_percent :
  calculate_position_size (S := unit) (R := unit) 3500 10000 tt = (Normal 1%Z, tt).
Proof. reflexivity. Qed.

End Engine.

(** ** Properties of [_execute_trade_decision] *)

Section TradeDecision.
Import TradingSystem TradeExecution.
Local Open Scope Q_scope.

Lemma execute_sell_all symbol price e h :
  portfolio e !! symbol = Some h ->
  execute_sell symbol price (quantity h) e
  = (true,
     mk_engine (cash_balance e + price * of_int (quantity h))
               (delete symbol (portfolio e))).
Proof.
  intros Hh. unfold execute_sell, can_sell. rewrite Hh.
  replace (quantity h >=? quantity h)%Z with true by lia. cbn [negb].
  cbn [portfolio cash_balance].
  rewrite (alter_as_insert _ _ _ _ Hh), lookup_insert_eq. cbn [quantity].
  replace (quantity h - quantity h =? 0)%Z with true by lia.
  cbn [portfolio cash_balance]. rewrite delete_insert_eq. reflexivity.
Qed.

(** X27: a SELL decision liquidates, and reports no profit.  For a held
    symbol and a non-zero price, [_execute_trade_decision] always succeeds
    in selling the entire holding: the position is removed and cash grows by
    price * quantity.  It computes the profit after the sale, when the
    position is already gone and its average price is replaced by the
    current price: the figure it saves is always 0. *)
Theorem sell_decision_reports_zero_pnl price_of symbol d current_price
    news_sentiment sys h :
  d_action d = Some "SELL" ->
  ~ current_price == 0 ->
  portfolio (trading_engine sys) !! symbol = Some h ->
  exists sys' t pnl,
    _execute_trade_decision price_of symbol d current_price news_sentiment sys
    = (Normal tt, sys')
    /\ portfolio (trading_engine sys') = delete symbol (portfolio (trading_engine sys))
    /\ cash_balance (trading_engine sys')
       = cash_balance (trading_engine sys) + current_price * of_int (quantity h)
    /\ saved_trades sys' = saved_trades sys ++ [t]
    /\ t_action t = "SELL" /\ t_quantity t = quantity h
    /\ t_pnl t = Some pnl /\ pnl == 0.
Proof.
  intros Haction Hprice Hheld. apply Qis0_false in Hprice.
  destruct sys as [e trades memories]. cbn [trading_engine] in Hheld.
  unfold _execute_trade_decision. rewrite Haction.
  cbv [get_or_else bind get ret return_ modify call_engine set_engine save_trade
       add_memory trading_engine saved_trades added_memories].
  change (String.eqb "SELL" "HOLD") with false.
  change (String.eqb "SELL" "BUY") with false.
  change (String.eqb "SELL" "SELL") with true.
  rewrite Hprice. cbn [orb andb].
  cbv [trading_engine saved_trades added_memories].
  rewrite bool_decide_eq_true_2 by eauto.
  rewrite Hheld.
  rewrite (execute_sell_all symbol current_price e h Hheld). cbn [fst snd].
  cbn [portfolio cash_balance]. rewrite lookup_delete_eq.
  eexists _, _, _. split; [reflexivity|]. cbn.
  repeat split; try reflexivity. ring.
Qed.

Definition holding_tcs : system :=
  mk_system (mk_engine 500000 {[ "TCS.NS" := mk_holding 14 3500 ]}) [] [].

Lemma sell_decision_reports_zero_pnl_witness :
  (d_action (mk_decision (Some "SELL") None) = Some "SELL"
   /\ ~ 4000 == 0
   /\ portfolio (trading_engine holding_tcs) !! "TCS.NS" = Some (mk_holding 14 3500))
  /\ exists sys' t pnl,
       _execute_trade_decision (fun _ => 4000) "TCS.NS"
         (mk_decision (Some "SELL") None) 4000 0 holding_tcs
       = (Normal tt, sys')
       /\ saved_trades sys' = saved_trades holding_tcs ++ [t]
       /\ t_pnl t = Some pnl /\ pnl == 0.
Proof.
  assert (H1 : d_action (mk_decision (Some "SELL") None) = Some "SELL") by reflexivity.
  assert (H2 : ~ 4000 == 0) by discriminate.
  assert (H3 : portfolio (trading_engine holding_tcs) !! "TCS.NS"
               = Some (mk_holding 14 3500)) by apply lookup_singleton_eq.
  split; [exact (conj H1 (conj H2 H3))|].
  destruct (sell_decision_reports_zero_pnl (fun _ => 4000) "TCS.NS"
              (mk_decision (Some "SELL") None) 4000 0 holding_tcs
              (mk_holding 14 3500) H1 H2 H3)
    as (sys' & t & pnl & Hrun & _ & _ & Htrades & _ & _ & Hpnl & Hzero).
  exists sys', t, pnl. repeat split; assumption.
Defined.

Lemma hold_decision_does_nothing price_of symbol d current_price news_sentiment sys :
  get_or_else "HOLD" (d_action d) = "HOLD" \/ current_price == 0 ->
  _execute_trade_decision price_of symbol d current_price news_sentiment sys
  = (Returned tt, sys).
Proof.
  intros H. unfold _execute_trade_decision, bind, return_.
  replace (String.eqb (get_or_else "HOLD" (d_action d)) "HOLD" || Qis0 current_price)
    with true; [reflexivity|].
  symmetry. apply orb_true_iff.
  destruct H as [H|H]; [left; apply String.eqb_eq, H | right; apply Qis0_true, H].
Qed.

(** X28: every decision acted upon is remembered.  Unless the action is
    HOLD or the price is 0, in which case nothing at all happens, a call
    that returns has added exactly one TRADE memory with importance 0.8,
    carrying the action and the portfolio value computed before the trade:
    also when the buy was refused, when the symbol of a SELL is not held,
    or when the action is neither BUY nor SELL. *)
Theorem acted_decision_is_remembered price_of symbol d current_price
    news_sentiment sys sys' :
  get_or_else "HOLD" (d_action d) <> "HOLD" ->
  ~ current_price == 0 ->
  _execute_trade_decision price_of symbol d current_price news_sentiment sys
  = (Normal tt, sys') ->
  added_memories sys'
  = added_memories sys
    ++ [mk_memory_record symbol "TRADE" (get_or_else "HOLD" (d_action d))
          current_price (get_portfolio_value price_of (trading_engine sys))
          (8 # 10)].
Proof.
  intros Haction Hprice. apply Qis0_false in Hprice. apply String.eqb_neq in Haction.
  destruct sys as [e trades memories].
  unfold _execute_trade_decision.
  cbv [bind get ret return_ modify call_engine set_engine save_trade
       add_memory trading_engine saved_trades added_memories
       calculate_position_size fdiv].
  rewrite Haction, Hprice. cbn [orb].
  intros Hrun.
  repeat (case_match; simplify_eq; try reflexivity; try congruence).
Qed.

Lemma acted_decision_is_remembered_witness :
  (get_or_else "HOLD" (d_action (mk_decision (Some "WAIT") None)) <> "HOLD"
   /\ ~ 4000 == 0)
  /\ added_memories
       (snd (_execute_trade_decision (fun _ => 4000) "TCS.NS"
               (mk_decision (Some "WAIT") None) 4000 0 holding_tcs))
     = [mk_memory_record "TCS.NS" "TRADE" "WAIT" 4000
          (get_portfolio_value (fun _ => 4000) (trading_engine holding_tcs))
          (8 # 10)].
Proof.
  assert (H1 : get_or_else "HOLD" (d_action (mk_decision (Some "WAIT") None)) <> "HOLD")
    by discriminate.
  assert (H2 : ~ 4000 == 0) by discriminate.
  split; [split; assumption|].
  assert (Hrun : _execute_trade_decision (fun _ => 4000) "TCS.NS"
                   (mk_decision (Some "WAIT") None) 4000 0 holding_tcs
                 = (Normal tt,
                    snd (_execute_trade_decision (fun _ => 4000) "TCS.NS"
                           (mk_decision (Some "WAIT") None) 4000 0 holding_tcs)))
    by reflexivity.
  exact (acted_decision_is_remembered (fun _ => 4000) "TCS.NS"
           (mk_decision (Some "WAIT") None) 4000 0 holding_tcs _ H1 H2 Hrun).
Defined.

End TradeDecision.

(* ===================================================================== *)
(** * puppy/models/rule_based_trader.py *)
(* ===================================================================== *)

Module RuleBasedTrader.
Import PortfolioView GeminiTrader.

(** The keys of one row of [market_data["data"]] that the rules read; the
    three averages are [None] while they are undefined. *)
Record stock_data := mk_stock_data {
  Symbol : string;
  Close : Q;
  RSI : Q;
  MA_20d : option Q;
  MA_50d : option Q;
  Volume : Q;
  Volume_MA : option Q
}.

(** [calculate_position_size]: 10% of the portfolio, between 100 and 2000
    shares.  [math.floor] of a division by zero raises. *)
Definition calculate_position_size (portfolio_value current_price : Q) : exn + Z :=
  let position_value := (portfolio_value * (10 # 100))%Q in
  if Qis0 current_price then inl ZeroDivisionError
  else
    let quantity := Qfloor (position_value / current_price) in
    inr (Z.max 100 (Z.min quantity 2000)).

(** The body of the loop of [make_decision] for one row: the decision to
    store under the row's symbol, if any. *)
Definition decide (portfolio_state : state) (stock_data : stock_data)
    : exn + option decision :=
  let portfolio_value := st_total_value portfolio_state in
  let symbol := Symbol stock_data in
  let current_price := Close stock_data in
  let rsi := RSI stock_data in
  let volume := Volume stock_data in
  match MA_20d stock_data, MA_50d stock_data with
  | Some ma_20, Some ma_50 =>
      (* Calculate position size *)
      match calculate_position_size portfolio_value current_price with
      | inl e => inl e
      | inr position_size =>
          (* Volume confirmation *)
          let volume_signal :=
            match Volume_MA stock_data with
            | Some volume_ma =>
                if Qis0 volume_ma then true
                else Qgtb volume (volume_ma * (11 # 10))
            | None => true
            end in
          match st_positions portfolio_state !! symbol with
          | None => (* No position, look for buy signals *)
              if (Qltb rsi 50 && Qgtb current_price ma_20)
                 || (Qgtb current_price ma_20 && Qltb current_price (ma_50 * (105 # 100)))
                 || (Qgtb current_price ma_20 && Qltb rsi 60 && volume_signal)
                 || (Qgtb current_price ma_20 && Qltb current_price (ma_20 * (102 # 100)))
              then
                inr (Some (mk_decision "buy" position_size current_price
                             "Technical indicators showing buying opportunity"))
              else inr None
          | Some position => (* Have position, look for sell signals *)
              let entry_price := pv_price position in
              if Qis0 entry_price then inl ZeroDivisionError
              else
                let profit_pct := ((current_price - entry_price) / entry_price)%Q in
                if Qgtb rsi 70
                   || Qltb current_price ma_20
                   || Qgtb current_price (ma_50 * (108 # 100))
                   || Qltb profit_pct (- (15 # 1000))
                   || Qgtb profit_pct (2 # 100)
                then
                  inr (Some (mk_decision "sell" (pv_quantity position) current_price
                               "Exit signal triggered based on technical indicators or profit targets"))
                else inr None
          end
      end
  | _, _ => inr None (* Skip if we don't have enough data *)
  end.

(** The loop over the rows, filling [decisions]. *)
Fixpoint decide_all (portfolio_state : state) (rows : list stock_data)
    (decisions : dict decision) : exn + dict decision :=
  match rows with
  | [] => inr decisions
  | stock_data :: rest =>
      match decide portfolio_state stock_data with
      | inl e => inl e
      | inr None => decide_all portfolio_state rest decisions
      | inr (Some d) =>
          decide_all portfolio_state rest (dict_set (Symbol stock_data) d decisions)
      end
  end.

(** [make_decision]; memories and news are not used. *)
Definition make_decision (market_data : list stock_data) (portfolio_state : state)
    : exn + dict decision :=
  decide_all portfolio_state market_data [].

End RuleBasedTrader.

(** ** Properties of the rule-based trader *)

Section Rules.
Import Portfolio PortfolioView GeminiTrader RuleBasedTrader.
Local Open Scope Q_scope.

(** What the rules guarantee of a decision [d] stored under [symbol]. *)
Definition rule_made (portfolio_state : state) (rows : list stock_data)
    (symbol : string) (d : decision) : Prop :=
  exists row ma_20 ma_50,
    row ∈ rows /\ Symbol row = symbol /\ price d = Close row
    /\ MA_20d row = Some ma_20 /\ MA_50d row = Some ma_50
    /\ match st_positions portfolio_state !! symbol with
       | None =>
           action d = "buy" /\ (100 <= quantity d <= 2000)%Z /\ ma_20 < Close row
       | Some position =>
           action d = "sell" /\ quantity d = pv_quantity position
       end.

Lemma Forall_dict_set {V} (P : string * V -> Prop) k v (d : dict V) :
  Forall P d -> P (k, v) -> Forall P (dict_set k v d).
Proof.
  intros Hd Hkv. induction Hd as [|[k' v'] d Hx Hd IH]; cbn.
  - repeat constructor. exact Hkv.
  - destruct (String.eqb k k'); constructor; assumption.
Qed.

Lemma decide_spec portfolio_state row d :
  decide portfolio_state row = inr (Some d) ->
  rule_made portfolio_state [row] (Symbol row) d.
Proof.
  unfold decide, calculate_position_size. intros H.
  destruct (MA_20d row) as [ma_20|] eqn:H20; [|discriminate].
  destruct (MA_50d row) as [ma_50|] eqn:H50; [|discriminate].
  destruct (Qis0 (Close row)); [discriminate|]. cbv zeta in H.
  exists row, ma_20, ma_50.
  split; [apply list_elem_of_here|]. split; [reflexivity|].
  destruct (st_positions portfolio_state !! Symbol row) as [position|].
  - destruct (Qis0 (pv_price position)); [discriminate|].
    destruct (_ || _); [|discriminate]. injection H as <-.
    repeat split; assumption || reflexivity.
  - match type of H with
    | (if ?c then _ else _) = _ => destruct c eqn:Hcond; [|discriminate]
    end.
    injection H as <-. cbn. repeat split; try assumption; try lia.
    rewrite !orb_true_iff, !andb_true_iff, !Qgtb_true in Hcond. tauto.
Qed.

Lemma decide_all_spec portfolio_state all rows :
  forall decisions out,
    rows ⊆ all ->
    Forall (fun kd => rule_made portfolio_state all (fst kd) (snd kd)) decisions ->
    decide_all portfolio_state rows decisions = inr out ->
    Forall (fun kd => rule_made portfolio_state all (fst kd) (snd kd)) out.
Proof.
  induction rows as [|row rows IH]; intros decisions out Hsub Hd Hrun.
  - injection Hrun as <-. exact Hd.
  - cbn [decide_all] in Hrun.
    assert (Hrest : rows ⊆ all) by (intros x Hx; apply Hsub, list_elem_of_further, Hx).
    destruct (decide portfolio_state row) as [e|[d|]] eqn:Hrow; [discriminate| |].
    + apply (IH _ _ Hrest) in Hrun; [exact Hrun|].
      apply Forall_dict_set; [exact Hd|].
      destruct (decide_spec _ _ _ Hrow) as (r & m20 & m50 & Hin & Hrest').
      apply list_elem_of_singleton in Hin. subst r.
      exists row, m20, m50. split; [apply Hsub, list_elem_of_here | exact Hrest'].
    + apply (IH _ _ Hrest) in Hrun; assumption.
Qed.

(** X29: what the rules can decide.  Every decision [make_decision]
    returns comes from a row of that symbol whose 20- and 50-day averages
    are both known, at that row's closing price.  For a symbol without a
    position it is a BUY of between 100 and 2000 shares, made only while
    the close is above the 20-day average; for a held symbol it is a SELL
    of the whole position. *)
Theorem rules_buy_new_and_sell_whole market_data portfolio_state decisions symbol d :
  make_decision market_data portfolio_state = inr decisions ->
  (symbol, d) ∈ decisions ->
  rule_made portfolio_state market_data symbol d.
Proof.
  intros Hrun Hin. unfold make_decision in Hrun.
  apply (decide_all_spec portfolio_state market_data) in Hrun;
    [|reflexivity|constructor].
  rewrite Forall_forall in Hrun. exact (Hrun _ Hin).
Qed.

Definition rising_row : stock_data :=
  mk_stock_data "TCS" 105 45 (Some 100) (Some 110) 1000 None.

Lemma rules_buy_new_and_sell_whole_witness :
  (make_decision [rising_row] fresh_state
   = inr [("TCS", mk_decision "buy" 952 105
                    "Technical indicators showing buying opportunity")]
   /\ ("TCS", mk_decision "buy" 952 105
                 "Technical indicators showing buying opportunity")
      ∈ [("TCS", mk_decision "buy" 952 105
                   "Technical indicators showing buying opportunity")])
  /\ rule_made fresh_state [rising_row] "TCS"
       (mk_decision "buy" 952 105 "Technical indicators showing buying opportunity").
Proof.
  assert (H1 : make_decision [rising_row] fresh_state
               = inr [("TCS", mk_decision "buy" 952 105
                                "Technical indicators showing buying opportunity")])
    by reflexivity.
  assert (H2 : ("TCS", mk_decision "buy" 952 105
                         "Technical indicators showing buying opportunity")
               ∈ [("TCS", mk_decision "buy" 952 105
                            "Technical indicators showing buying opportunity")])
    by apply list_elem_of_here.
  split; [split; assumption|].
  exact (rules_buy_new_and_sell_whole [rising_row] fresh_state _ "TCS" _ H1 H2).
Defined.

(** X30: a position opened on a rule-based decision holds a full lot.
    When the rules, shown the state of a ledger, decide to BUY and [buy]
    executes that decision on the ledger, the symbol was not held before
    and is held afterwards with at least 100 shares, at the decision's
    price: whether [buy] took the decided quantity or shrank it. *)
Theorem rule_based_buy_opens_a_full_lot w s st market_data decisions symbol d :
  get_state w s = inr st ->
  make_decision market_data st = inr decisions ->
  (symbol, d) ∈ decisions ->
  action d = "buy" ->
  fst (buy w symbol (quantity d) (price d) (reason d) s) = true ->
  positions s !! symbol = None
  /\ exists pos,
       positions (snd (buy w symbol (quantity d) (price d) (reason d) s)) !! symbol
       = Some pos
       /\ (100 <= pos_quantity pos)%Z
       /\ pos_price pos = price d.
Proof.
  intros Hstate Hrun Hin Hbuy Hok.
  destruct (rules_buy_new_and_sell_whole _ _ _ _ _ Hrun Hin)
    as (row & ma_20 & ma_50 & _ & _ & _ & _ & _ & Hkind).
  destruct (get_state_reports_the_ledger w s st Hstate) as (_ & _ & Hdom & _).
  destruct (st_positions st !! symbol) as [position|] eqn:Hview.
  { destruct Hkind as [Hsell _]. rewrite Hsell in Hbuy. discriminate. }
  destruct Hkind as (_ & Hlot & _).
  assert (Hnone : positions s !! symbol = None) by (apply Hdom, Hview).
  split; [exact Hnone|].
  destruct (buy_success_shape _ _ _ _ _ _ Hok) as (q & Hq & _ & ->).
  apply buy_quantity_cases in Hq.
  exists (mk_position q (price d)). cbn.
  rewrite lookup_insert_eq. unfold merged. rewrite Hnone.
  split; [reflexivity|]. split; [cbn; lia | reflexivity].
Qed.

Lemma rule_based_buy_opens_a_full_lot_witness :
  (get_state midday (fresh (2 # 10)) = inr fresh_state
   /\ make_decision [rising_row] fresh_state
      = inr [("TCS", mk_decision "buy" 952 105
                       "Technical indicators showing buying opportunity")]
   /\ fst (buy midday "TCS" 952 105
             "Technical indicators showing buying opportunity" (fresh (2 # 10)))
      = true)
  /\ positions (fresh (2 # 10)) !! "TCS" = None
  /\ exists pos,
       positions (snd (buy midday "TCS" 952 105
                         "Technical indicators showing buying opportunity"
                         (fresh (2 # 10)))) !! "TCS"
       = Some pos
       /\ (100 <= pos_quantity pos)%Z
       /\ pos_price pos = 105.
Proof.
  assert (H1 : get_state midday (fresh (2 # 10)) = inr fresh_state).
  { unfold get_state, positions_with_value. cbn [fresh init positions].
    rewrite map_fold_empty. reflexivity. }
  assert (H2 : make_decision [rising_row] fresh_state
               = inr [("TCS", mk_decision "buy" 952 105
                                "Technical indicators showing buying opportunity")])
    by reflexivity.
  assert (H3 : fst (buy midday "TCS" 952 105
                      "Technical indicators showing buying opportunity"
                      (fresh (2 # 10))) = true)
    by (rewrite buy_eq; reflexivity).
  split; [exact (conj H1 (conj H2 H3))|].
  exact (rule_based_buy_opens_a_full_lot midday (fresh (2 # 10)) fresh_state
           [rising_row] _ "TCS"
           (mk_decision "buy" 952 105
              "Technical indicators showing buying opportunity")
           H1 H2 (list_elem_of_here _ _) eq_refl H3).
Defined.

End Rules.
